(** * ReSageAI backend (backend/app.py): reply parsing, the résumé gate and
      the analysis route

    Python [str] values are sequences of Unicode code points; they are
    modelled as [list N].  The character tables of the Python runtime that
    the program relies on (white space, line boundaries, decimal digits,
    lower-casing) are written out below as CPython 3.11 / Unicode 14 has
    them.  The table behind the regular-expression class [\w] is large
    and is kept as a field of the environment record [Env]. *)

From Stdlib Require Import String Ascii.
From Stdlib Require Import List NArith ZArith Bool Lia.
From Stdlib Require Import Numbers.DecimalString.
Import ListNotations.

Definition str := list N.

(** An ASCII literal of the source, as a [str]. *)
Definition of_string (s : string) : str :=
  map N_of_ascii (list_ascii_of_string s).
Arguments of_string s%_string.

(** ** The [str] methods used by the program *)
Module Py.

Definition mem (c : N) (cs : list N) : bool := existsb (N.eqb c) cs.

(** [str.isspace] on one code point. *)
Definition whitespace : list N :=
  [9; 10; 11; 12; 13; 28; 29; 30; 31; 32; 133; 160; 5760;
   8192; 8193; 8194; 8195; 8196; 8197; 8198; 8199; 8200; 8201; 8202;
   8232; 8233; 8239; 8287; 12288]%N.
Definition isspace (c : N) : bool := mem c whitespace.

(** The line boundaries of [str.splitlines]. *)
Definition linebreaks : list N :=
  [10; 11; 12; 13; 28; 29; 30; 133; 8232; 8233]%N.
Definition islinebreak (c : N) : bool := mem c linebreaks.

(** [s.splitlines()]: the boundaries are dropped, "\r\n" counts as one
    boundary, and a text that ends in a boundary has no empty last
    line.  [cur] is the line read so far. *)
Fixpoint splitlines_from (cur s : str) : list str :=
  match s with
  | [] => match cur with [] => [] | _ => [cur] end
  | c :: t =>
      if islinebreak c then
        cur :: match t with
               | d :: t' =>
                   if (c =? 13)%N && (d =? 10)%N
                   then splitlines_from [] t'
                   else splitlines_from [] t
               | [] => splitlines_from [] t
               end
      else splitlines_from (cur ++ [c]) t
  end.
Definition splitlines (s : str) : list str := splitlines_from [] s.

Fixpoint lstrip_by (p : N -> bool) (s : str) : str :=
  match s with
  | [] => []
  | c :: t => if p c then lstrip_by p t else s
  end.
Definition rstrip_by (p : N -> bool) (s : str) : str :=
  rev (lstrip_by p (rev s)).
Definition strip_by (p : N -> bool) (s : str) : str :=
  rstrip_by p (lstrip_by p s).

(** [s.strip()] *)
Definition strip (s : str) : str := strip_by isspace s.
(** [s.strip(chars)] *)
Definition strip_chars (chars s : str) : str :=
  strip_by (fun c => mem c chars) s.

(** [s.startswith(p)] *)
Fixpoint startswith (p s : str) : bool :=
  match p, s with
  | [], _ => true
  | _ :: _, [] => false
  | a :: p', b :: s' => (a =? b)%N && startswith p' s'
  end.

(** [sub in s] *)
Fixpoint contains (sub s : str) : bool :=
  startswith sub s ||
  match s with
  | [] => false
  | _ :: t => contains sub t
  end.

(** [s.lower()], one code point at a time.  Below 256 this is CPython's
    table; U+0130 is the one code point whose lower case is two code
    points, and U+212A (Kelvin sign) is the one other code point beyond
    ASCII whose lower case is an ASCII letter.  Every other code point
    is kept: CPython maps a cased letter beyond Latin-1 to a letter
    beyond ASCII, and the program only looks for ASCII words in
    lower-cased text. *)
Definition lower_char (c : N) : str :=
  if (65 <=? c)%N && (c <=? 90)%N then [c + 32]%N
  else if (192 <=? c)%N && (c <=? 222)%N && negb (c =? 215)%N then [c + 32]%N
  else if (c =? 304)%N then [105; 775]%N
  else if (c =? 8490)%N then [107]%N
  else [c].
Definition lower (s : str) : str := flat_map lower_char s.

(** [bool(xs)] of a list or a [str]. *)
Definition truthy {A} (xs : list A) : bool :=
  match xs with [] => false | _ => true end.

(** [sep.join(xs)] *)
Fixpoint join (sep : str) (xs : list str) : str :=
  match xs with
  | [] => []
  | [x] => x
  | x :: rest => x ++ sep ++ join sep rest
  end.

End Py.

(** ** The regular expressions of the program

    Each pattern is matched by a function that reads like the pattern from
    left to right.  [re.search] tries the start positions from the left
    and returns the first match. *)
Module Re.

(** The zeros of the decimal-digit blocks: [\d] is a code point [z + i]
    with [z] in the table and [i < 10], and [int] reads it as [i]. *)
Definition decimal_zeros : list N :=
  [48; 1632; 1776; 1984; 2406; 2534; 2662; 2790; 2918; 3046; 3174; 3302;
   3430; 3558; 3664; 3792; 3872; 4160; 4240; 6112; 6160; 6470; 6608; 6784;
   6800; 6992; 7088; 7232; 7248; 42528; 43216; 43264; 43472; 43504; 43600;
   44016; 65296; 66720; 68912; 69734; 69872; 69942; 70096; 70384; 70736;
   70864; 71248; 71360; 71472; 71904; 72016; 72784; 73040; 73120; 92768;
   92864; 93008; 120782; 120792; 120802; 120812; 120822; 123200; 123632;
   125264; 130032]%N.

Definition digit_value (c : N) : option Z :=
  match find (fun z => (z <=? c)%N && (c <? z + 10)%N) decimal_zeros with
  | Some z => Some (Z.of_N (c - z))
  | None => None
  end.
Definition isdigit (c : N) : bool :=
  match digit_value c with Some _ => true | None => false end.

(** [int(g)] for a group [g] of decimal digits. *)
Definition int (g : str) : Z :=
  fold_left
    (fun acc c => match digit_value c with
                  | Some d => 10 * acc + d
                  | None => acc
                  end)%Z
    g 0%Z.

(** [\s*]: greedy; in every pattern below it is followed by a literal
    that is not white space, so no shorter run can lead to a match. *)
Definition spaces (s : str) : str := Py.lstrip_by Py.isspace s.

(** A run of literals under [re.IGNORECASE]: one set of accepted code
    points per position. *)
Fixpoint literals (sets : list (list N)) (s : str) : option str :=
  match sets, s with
  | [], _ => Some s
  | _ :: _, [] => None
  | cs :: sets', c :: s' =>
      if Py.mem c cs then literals sets' s' else None
  end.

(** "Score" under IGNORECASE: besides the two cases of each letter, the
    long s (U+017F) is accepted for "s". *)
Definition Score : list (list N) :=
  [[83; 115; 383]; [67; 99]; [79; 111]; [82; 114]; [69; 101]]%N.

(** [\d{1,n}], greedy: the digits read and the rest. *)
Fixpoint digits_upto (n : nat) (s : str) : str * str :=
  match n, s with
  | S n', c :: t =>
      if isdigit c
      then let (g, r) := digits_upto n' t in (c :: g, r)
      else ([], s)
  | _, _ => ([], s)
  end.

(** One literal code point. *)
Definition expect (c : N) (s : str) : option str :=
  match s with
  | x :: t => if (x =? c)%N then Some t else None
  | [] => None
  end.

(** [Score\s*:\s*(\d{1,3})\s*/\s*100] at the start of [s]: group 1.
    When a fourth digit follows the group no shorter group can be
    followed by [\s*/] either, so the greedy group is the only one to
    try. *)
Definition score_at (s : str) : option str :=
  match literals Score s with
  | None => None
  | Some s1 =>
      match expect 58 (spaces s1) with
      | None => None
      | Some s2 =>
          match digits_upto 3 (spaces s2) with
          | ([], _) => None
          | (g, s3) =>
              match expect 47 (spaces s3) with
              | None => None
              | Some s4 =>
                  if Py.startswith (of_string "100") (spaces s4)
                  then Some g else None
              end
          end
      end
  end.

(** [re.search(r"Score\s*:\s*(\d{1,3})\s*/\s*100", ln, re.IGNORECASE)],
    as [m.group(1)]. *)
Fixpoint search_score (ln : str) : option str :=
  match score_at ln with
  | Some g => Some g
  | None => match ln with
            | [] => None
            | _ :: t => search_score t
            end
  end.

Definition islower_az (c : N) : bool := (97 <=? c)%N && (c <=? 122)%N.
Definition isupper_AZ (c : N) : bool := (65 <=? c)%N && (c <=? 90)%N.

(** [re.sub(r'([a-z])([A-Z])', r'\1 \2', text)]: the matches are found
    from the left and do not overlap; a matched pair is written back
    with a space in between, every other code point is copied. *)
Fixpoint sub_camel (text : str) : str :=
  match text with
  | [] => []
  | a :: t =>
      match t with
      | b :: rest =>
          if islower_az a && isupper_AZ b
          then a :: 32%N :: b :: sub_camel rest
          else a :: sub_camel t
      | [] => [a]
      end
  end.

(** *** The patterns of [detect_criteria] *)
Section Word.
(** [str.isalnum] of the runtime; [\w] is an alphanumeric code point
    or the underscore. *)
Variable isalnum : N -> bool.

Definition word (c : N) : bool := isalnum c || (c =? 95)%N.
Definition word_at (c : option N) : bool :=
  match c with Some c => word c | None => false end.
(** [\b] between the code points [a] and [b] ([None] at either end of
    the text). *)
Definition boundary (a b : option N) : bool :=
  xorb (word_at a) (word_at b).

(** [\b(w1|w2|...)\b] with [s] the text from the current position on
    and [prev] the code point before it. *)
Definition alternative_at (prev : option N) (s w : str) : bool :=
  boundary prev (hd_error s)
  && Py.startswith w s
  && boundary (hd_error (rev w)) (hd_error (skipn (length w) s)).
Fixpoint search_words_from (ws : list str) (prev : option N) (s : str)
  : bool :=
  existsb (alternative_at prev s) ws ||
  match s with
  | [] => false
  | c :: t => search_words_from ws (Some c) t
  end.
(** [bool(re.search(r'\b(w1|w2|...)\b', t))] for plain words. *)
Definition search_words (ws : list str) (t : str) : bool :=
  search_words_from ws None t.

(** [[\w-]+\.[\w.-]+] from [s] on; [nonempty] tells that one code
    point of [[\w-]+] was read already.  Every split of the run is
    tried, as the backtracking matcher does. *)
Fixpoint email_domain (nonempty : bool) (s : str) : bool :=
  match s with
  | [] => false
  | c :: t =>
      (nonempty && (c =? 46)%N &&
       match t with
       | d :: _ => word d || Py.mem d (of_string ".-")
       | [] => false
       end)
      || ((word c || (c =? 45)%N) && email_domain true t)
  end.
(** [bool(re.search(r'[\w.+-]+@[\w-]+\.[\w.-]+', text))]; [local]
    tells that the code point before [s] is in [[\w.+-]]. *)
Fixpoint search_email_from (local : bool) (s : str) : bool :=
  match s with
  | [] => false
  | c :: t =>
      (local && (c =? 64)%N && email_domain false t)
      || search_email_from (word c || Py.mem c (of_string ".+-")) t
  end.
Definition search_email (text : str) : bool :=
  search_email_from false text.
End Word.

(** [bool(re.search(r'\+?\d[\d ()-]{7,}', text))]: the optional plus
    sign never decides whether there is a match. *)
Definition phone_tail (c : N) : bool :=
  isdigit c || Py.mem c (of_string " ()-").
Fixpoint search_phone (text : str) : bool :=
  match text with
  | [] => false
  | c :: t =>
      (isdigit c && (7 <=? length (firstn 7 t))%nat
       && forallb phone_tail (firstn 7 t))
      || search_phone t
  end.

End Re.

(** ** Exceptions and the effects of a request *)

(** What [flask.abort(code, description)] raises. *)
Record HTTPError := { code : N; description : str }.

Inductive exn :=
| HTTPException (h : HTTPError)
| Exception (detail : str).   (* any other [Exception]; [detail] is [str(e)] *)

Definition decimal (n : N) : str :=
  of_string (NilEmpty.string_of_uint (N.to_uint n)).

(** werkzeug's [HTTPException.name] and [__str__]. *)
Definition http_name (c : N) : str :=
  if (c =? 400)%N then of_string "Bad Request"
  else if (c =? 502)%N then of_string "Bad Gateway"
  else of_string "Unknown Error".
Definition str_of_http (h : HTTPError) : str :=
  decimal (code h) ++ of_string " " ++ http_name (code h)
    ++ of_string ": " ++ description h.
Definition str_of_exn (e : exn) : str :=
  match e with
  | HTTPException h => str_of_http h
  | Exception detail => detail
  end.

Inductive result (A : Type) :=
| Return (a : A)
| Raise (e : exn).
Arguments Return {A} a.
Arguments Raise {A} e.

(** A computation reads and extends the list of prompts sent to the
    provider so far, and returns or raises. *)
Definition M (A : Type) : Type := list str -> result A * list str.

Definition ret {A} (a : A) : M A := fun log => (Return a, log).
Definition raise {A} (e : exn) : M A := fun log => (Raise e, log).
Definition bind {A B} (c : M A) (k : A -> M B) : M B :=
  fun log =>
    match c log with
    | (Return a, log') => k a log'
    | (Raise e, log') => (Raise e, log')
    end.
(** [try: c  except Exception as e: h e] *)
Definition try_except {A} (c : M A) (h : exn -> M A) : M A :=
  fun log =>
    match c log with
    | (Return a, log') => (Return a, log')
    | (Raise e, log') => h e log'
    end.

Notation "x <- c ;; k" := (bind c (fun x => k))
  (at level 61, c at next level, right associativity).
Notation "' pat <- c ;; k" :=
  (bind c (fun x => match x with pat => k end))
  (at level 61, pat pattern, c at next level, right associativity).

Definition abort {A} (c : N) (msg : str) : M A :=
  raise (HTTPException {| code := c; description := msg |}).

(** ** The libraries and the provider *)

Record pdf_page := { extract_text : option str; images : list N }.
Record docx_document := { paragraphs : list str; inline_shapes : list N }.

(** The world a request runs in.  A library call returns [inr] its result
    or [inl] the detail of the exception it raises. *)
Record Env := {
  UPLOAD_FOLDER : str;
  pdfplumber_open : str -> str + list pdf_page;
  docx_Document : str -> str + docx_document;
  (** [textract.process(path).decode('utf-8', errors='ignore')] *)
  textract_process : str -> str + str;
  (** [model.generate_content(prompt).text] *)
  generate_content : str -> str + str;
  (** [str.isalnum] on one code point, the table behind [\w] *)
  isalnum : N -> bool
}.

Definition lib {A} (r : str + A) : M A :=
  match r with
  | inr a => ret a
  | inl detail => raise (Exception detail)
  end.

Definition str_eqb (a b : str) : bool :=
  if list_eq_dec N.eq_dec a b then true else false.

Definition nl : str := [10%N].

(** ** Helpers of app.py *)

(** [path.rsplit('.', 1)[1]]: what follows the last dot; an [IndexError]
    when the path has no dot. *)
Fixpoint upto_dot (s : str) : option str :=
  match s with
  | [] => None
  | c :: t => if (c =? 46)%N then Some []
              else option_map (cons c) (upto_dot t)
  end.
Definition after_last_dot (path : str) : M str :=
  match upto_dot (rev path) with
  | Some r => ret (rev r)
  | None => raise (Exception (of_string "list index out of range"))
  end.

(** [for page in pdf.pages: if page.images: has_photo = True; break] *)
Fixpoint photo_loop (pages : list pdf_page) (has_photo : bool) : bool :=
  match pages with
  | [] => has_photo
  | page :: rest =>
      if Py.truthy (images page) then true else photo_loop rest has_photo
  end.

Definition extract_text_and_photo (env : Env) (path : str) : M (str * bool) :=
  e <- after_last_dot path ;;
  let ext := Py.lower e in
  ' (text, has_photo) <-
    (if str_eqb ext (of_string "pdf") then
       pages <- lib (pdfplumber_open env path) ;;
       let text :=
         Py.join nl
           (map (fun p => match extract_text p with
                          | Some t => if Py.truthy t then t else []
                          | None => []
                          end) pages) in
       ret (text, photo_loop pages false)
     else if str_eqb ext (of_string "docx") then
       doc <- lib (docx_Document env path) ;;
       ret (Py.join nl (paragraphs doc), Py.truthy (inline_shapes doc))
     else
       text <- lib (textract_process env path) ;;
       ret (text, false)) ;;
  ret (Re.sub_camel text, has_photo).

(** The criteria are a [dict] with six keys, in the order they are
    written in the source. *)
Definition detect_criteria (env : Env) (text : str) (has_photo : bool)
  : list (string * bool) :=
  let t := Py.lower text in
  let words := Re.search_words (isalnum env) in
  [ ("Profile Photo"%string, has_photo);
    ("Summary"%string,
      words [of_string "objective"; of_string "summary"] t);
    ("Skills"%string, words [of_string "skills"; of_string "skill"] t);
    ("Education"%string,
      words [of_string "education"; of_string "b.tech"; of_string "btech";
             of_string "bachelor"; of_string "master"; of_string "phd"] t);
    ("Projects"%string,
      words [of_string "projects"; of_string "project"] t);
    ("Contact Info"%string,
      Re.search_email (isalnum env) text || Re.search_phone text) ].

(** [sum(criteria.values())] *)
Definition sum_values (criteria : list (string * bool)) : Z :=
  fold_left (fun acc (kv : string * bool) => acc + (if snd kv then 1 else 0))%Z
    criteria 0%Z.

(** The marker of a failed provider call: U+274C and a label. *)
Definition error_marker : str :=
  10060%N :: of_string " Gemini API Error: ".

(** One call of the provider; the prompt is recorded. *)
Definition generate (env : Env) (prompt : str) : M str :=
  fun log =>
    (match generate_content env prompt with
     | inr text => Return text
     | inl detail => Raise (Exception detail)
     end, log ++ [prompt]).

Definition ask_gemini (env : Env) (prompt : str) : M str :=
  try_except
    (response_text <- generate env prompt ;; ret response_text)
    (fun e => ret (error_marker ++ str_of_exn e)).

(** [ln.strip().startswith('-')] *)
Definition dashed (ln : str) : bool :=
  Py.startswith (of_string "-") (Py.strip ln).
(** [ln.strip('- ').strip()] *)
Definition item (ln : str) : str :=
  Py.strip (Py.strip_chars (of_string "- ") ln).

(** The first loop of [score_and_suggest]; it stops at the first match. *)
Fixpoint score_loop (lines : list str) (score : Z) : Z :=
  match lines with
  | [] => score
  | ln :: rest =>
      match Re.search_score ln with
      | Some g => Re.int g
      | None => score_loop rest score
      end
  end.

(** The second loop of [score_and_suggest]. *)
Definition suggestions_loop (lines : list str) (suggestions : list str)
  : list str :=
  fold_left
    (fun acc ln => if dashed ln then acc ++ [item ln] else acc)
    lines suggestions.

(** What [score_and_suggest] makes of the reply [raw]. *)
Definition score_and_suggest_reply (raw : str) : Z * list str :=
  let lines := Py.splitlines raw in
  let score := score_loop lines 0%Z in
  let suggestions := suggestions_loop lines [] in
  (score, firstn 5 suggestions).

Definition score_prompt (text : str) : str :=
  of_string "You are an expert resume screener. Return exactly:" ++ nl
  ++ of_string "1. A single line " ++ [8220%N] ++ of_string "Score: XX/100"
  ++ [8221%N] ++ of_string " (give some ample marks)" ++ nl
  ++ of_string "2. Up to 5 bullet-point suggestions prefixed with "
  ++ [8220%N] ++ of_string "- " ++ [8221%N]
  ++ of_string "(Give it as line statements without bold fonts)" ++ nl ++ nl
  ++ firstn 3000 text.

Definition score_and_suggest (env : Env) (text : str) : M (Z * list str) :=
  raw <- ask_gemini env (score_prompt text) ;;
  ret (score_and_suggest_reply raw).

(** What [grammar_errors] makes of the reply [raw]: the comprehension
    [[ln.strip('- ').strip() for ln in raw.splitlines()
      if ln.strip().startswith('-')]]. *)
Definition grammar_errors_reply (raw : str) : list str :=
  map item (filter dashed (Py.splitlines raw)).

Definition grammar_prompt (text : str) : str :=
  of_string "List grammatical and spelling errors in the following resume text. Cross check before listing the errors. Please don't give capitalization issues and inconsistency errors, kindly ignore them since you don't know to identify it perfectly  example: Key Achievement: should be Key Achievement- this was the silly error you made on testing avaoid them please. Also no need to give useless or errors without much impact when there is not big errors in the resume."
  ++ nl
  ++ of_string "Output each error as a separate line prefixed with "
  ++ [8220%N] ++ of_string "- " ++ [8221%N] ++ of_string "."
  ++ nl ++ nl ++ nl
  ++ firstn 3000 text.

Definition grammar_errors (env : Env) (text : str) : M (list str) :=
  raw <- ask_gemini env (grammar_prompt text) ;;
  ret (grammar_errors_reply raw).

Definition Not_identified : str := of_string "Not identified".

(** ['industry' in ln.lower() or 'field' in ln.lower()] *)
Definition names_field (ln : str) : bool :=
  Py.contains (of_string "industry") (Py.lower ln)
  || Py.contains (of_string "field") (Py.lower ln).

(** One turn of the loop of [recommend_jobs] on the pair
    [(job_roles, field)]. *)
Definition jobs_step (st : list str * str) (ln : str) : list str * str :=
  let (job_roles, field) := st in
  if dashed ln then (job_roles ++ [item ln], field)
  else if names_field ln then (job_roles, Py.strip ln)
  else (job_roles, field).

(** What [recommend_jobs] makes of the reply [raw]. *)
Definition recommend_jobs_reply (raw : str) : list str * str :=
  let (job_roles, field) :=
    fold_left jobs_step (Py.splitlines raw) ([], Not_identified) in
  (firstn 5 job_roles, field).

Definition jobs_prompt (text : str) : str :=
  of_string "You are a career guidance expert. Based on the resume text below, suggest:"
  ++ nl
  ++ of_string "1. 3-5 suitable job roles (in bullet points prefixed by '- ')"
  ++ nl
  ++ of_string "2. The field/industry the candidate is most suited for" ++ nl
  ++ of_string "Be precise and professional. Avoid unnecessary sentences."
  ++ nl ++ nl
  ++ firstn 3000 text.

Definition recommend_jobs (env : Env) (text : str) : M (list str * str) :=
  raw <- ask_gemini env (jobs_prompt text) ;;
  ret (recommend_jobs_reply raw).

(** ** Routes *)

(** The values handed to the template. *)
Inductive value :=
| VInt (z : Z)
| VStr (s : str)
| VList (xs : list str)
| VDict (d : list (string * bool)).

(** [render_template(template, **context)] *)
Record rendered := {
  template : string;
  context : list (string * value)
}.
Definition render_template (name : string) (kwargs : list (string * value))
  : rendered :=
  {| template := name; context := kwargs |}.

(** [os.path.join(a, b)] on POSIX. *)
Definition os_path_join (a b : str) : str :=
  if Py.startswith (of_string "/") b then b
  else if negb (Py.truthy a) || Py.startswith (of_string "/") (rev a)
       then a ++ b
       else a ++ of_string "/" ++ b.

Definition not_a_resume : str :=
  of_string "Uploaded file doesn" ++ [8217%N]
  ++ of_string "t appear to be a resume.".

(** The view function of [/analysis]; [fname] is
    [request.args.get('filename')]. *)
Definition analysis (env : Env) (fname : option str) : M rendered :=
  match fname with
  | None | Some [] => abort 400 (of_string "Filename missing")
  | Some fname =>
      let path := os_path_join (UPLOAD_FOLDER env) fname in
      ' (text, has_photo) <- extract_text_and_photo env path ;;
      let criteria := detect_criteria env text has_photo in
      if (sum_values criteria <? 3)%Z then abort 400 not_a_resume
      else
        ' (score, suggestions, errors, job_roles, job_field) <-
          try_except
            (' (score, suggestions) <- score_and_suggest env text ;;
             errors <- grammar_errors env text ;;
             ' (job_roles, job_field) <- recommend_jobs env text ;;
             ret (score, suggestions, errors, job_roles, job_field))
            (fun e => abort 502 (of_string "AI model error: " ++ str_of_exn e)) ;;
        ret (render_template "results.html"
               [ ("score"%string, VInt score);
                 ("criteria"%string, VDict criteria);
                 ("errors"%string, VList (firstn 10 errors));
                 ("suggestions"%string, VList suggestions);
                 ("job_roles"%string, VList job_roles);
                 ("job_field"%string, VStr job_field) ])
  end.

(** The handler registered for 400 and 502. *)
Definition handle_errors (e : HTTPError) : rendered * N :=
  (render_template "results.html"
     [ ("score"%string, VInt 0);
       ("criteria"%string, VDict []);
       ("errors"%string, VList [str_of_http e]);
       ("suggestions"%string, VList []) ],
   code e).

(** What the client of [GET /analysis] gets: the view rendered with
    status 200, the answer of [handle_errors] for an abort with 400 or
    502, the framework's page for another abort, or an exception that
    no handler of the application takes. *)
Inductive response :=
| Response (body : rendered) (status : N)
| DefaultPage (status : N)
| Unhandled (e : exn).

Definition GET_analysis (env : Env) (fname : option str)
  : response * list str :=
  match analysis env fname [] with
  | (Return body, log) => (Response body 200, log)
  | (Raise (HTTPException h), log) =>
      if (code h =? 400)%N || (code h =? 502)%N
      then let (body, status) := handle_errors h in (Response body status, log)
      else (DefaultPage (code h), log)
  | (Raise (Exception d), log) => (Unhandled (Exception d), log)
  end.

(** ** Vocabulary of the statements *)

(** The texts that begin with a match of the score pattern, with the
    group [g]: "Score" in any letter case, a colon, one to three
    decimal digits, a slash and "100", with white space allowed around
    the colon and the slash. *)
Definition score_match (s g : str) : Prop :=
  exists w ws1 ws2 ws3 ws4 rest,
    s = w ++ ws1 ++ 58%N :: ws2 ++ g ++ ws3 ++ 47%N :: ws4
          ++ of_string "100" ++ rest
    /\ Forall2 (fun c cs => Py.mem c cs = true) w Re.Score
    /\ forallb Py.isspace (ws1 ++ ws2 ++ ws3 ++ ws4) = true
    /\ (1 <= length g <= 3)%nat
    /\ forallb Re.isdigit g = true.

(** A line that sets the field in [recommend_jobs]: it is not taken as a
    job role and it names a field. *)
Definition field_line (ln : str) : bool := negb (dashed ln) && names_field ln.

(** The field as the specification words it: the first line that names
    a field, as it stands. *)
Definition first_field_line (raw : str) : str :=
  match find names_field (Py.splitlines raw) with
  | Some ln => ln
  | None => Not_identified
  end.

(** A suggestion, error or role as the specification words it: the line
    without its leading and trailing dashes and spaces. *)
Definition undashed (ln : str) : str := Py.strip_chars (of_string "- ") ln.

(** The code points that [strip('- ')] removes. *)
Definition dash_or_space (c : N) : bool := Py.mem c (of_string "- ").

(** The text [ask_gemini] hands back for [prompt]. *)
Definition provider_reply (env : Env) (prompt : str) : str :=
  match generate_content env prompt with
  | inr text => text
  | inl detail => error_marker ++ detail
  end.

(** A keyword argument of a rendered view. *)
Fixpoint kwarg (name : string) (kwargs : list (string * value))
  : option value :=
  match kwargs with
  | [] => None
  | (k, v) :: rest => if String.eqb k name then Some v else kwarg name rest
  end.

(** The two aborts of [analysis]. *)
Definition missing_filename : HTTPError :=
  {| code := 400; description := of_string "Filename missing" |}.
Definition rejected : HTTPError :=
  {| code := 400; description := not_a_resume |}.

(** The view of a request that passes the gate. *)
Definition results_view (env : Env) (text : str) (has_photo : bool)
  : rendered :=
  let r1 := score_and_suggest_reply (provider_reply env (score_prompt text)) in
  let r2 := grammar_errors_reply (provider_reply env (grammar_prompt text)) in
  let r3 := recommend_jobs_reply (provider_reply env (jobs_prompt text)) in
  render_template "results.html"
    [ ("score"%string, VInt (fst r1));
      ("criteria"%string, VDict (detect_criteria env text has_photo));
      ("errors"%string, VList (firstn 10 r2));
      ("suggestions"%string, VList (snd r1));
      ("job_roles"%string, VList (fst r3));
      ("job_field"%string, VStr (snd r3)) ].

(** No file at [path]: each of the three libraries raises when asked to
    open it. *)
Definition file_missing (env : Env) (path : str) : Prop :=
  (exists d, pdfplumber_open env path = inl d)
  /\ (exists d, docx_Document env path = inl d)
  /\ (exists d, textract_process env path = inl d).

(** The same shape of two views as the specification words it: the
    same template filled with the same variables. *)
Definition same_shape (a b : rendered) : Prop :=
  template a = template b
  /\ map fst (context a) = map fst (context b).

(** The upload folder holds no file at all: nothing can be opened at a
    path below it. *)
Definition uploads_hold_no_file (env : Env) : Prop :=
  forall name, file_missing env (UPLOAD_FOLDER env ++ of_string "/" ++ name).

(** No lower-case letter directly followed by an upper-case one. *)
Fixpoint no_transition (s : str) : bool :=
  match s with
  | a :: (b :: _) as t =>
      negb (Re.islower_az a && Re.isupper_AZ b) && no_transition t
  | _ => true
  end.

(** *** Example worlds *)

Definition ascii_alnum (c : N) : bool :=
  ((48 <=? c) && (c <=? 57) || (65 <=? c) && (c <=? 90)
   || (97 <=? c) && (c <=? 122))%N.

(** An uploads folder that holds the one word-processor file [cv.doc]
    with the text [content]; the provider answers every prompt with
    [answer]. *)
Definition world (content : str) (answer : str + str) : Env :=
  {| UPLOAD_FOLDER := of_string "/srv/app/backend/uploads";
     pdfplumber_open := fun _ => inl (of_string "No such file or directory");
     docx_Document := fun _ => inl (of_string "Package not found");
     textract_process := fun path =>
       if str_eqb path (of_string "/srv/app/backend/uploads/cv.doc")
       then inr content
       else inl (of_string "The file does not exist");
     generate_content := fun _ => answer;
     isalnum := ascii_alnum |}.

Definition resume_text : str :=
  of_string "Objective: build tools. Skills: Python. Education: B.Tech. Projects: none. Mail a@b.com".
Definition letter_text : str :=
  of_string "Dear all, my skills and my summary follow.".

(** ** The upload route and its helper *)

Definition ALLOWED_EXTENSIONS : list str :=
  [of_string "pdf"; of_string "doc"; of_string "docx"].

(** ['.' in filename and
     filename.rsplit('.', 1)[1].lower() in ALLOWED_EXTENSIONS] *)
Definition allowed_file (filename : str) : M bool :=
  if Py.contains (of_string ".") filename then
    e <- after_last_dot filename ;;
    ret (existsb (str_eqb (Py.lower e)) ALLOWED_EXTENSIONS)
  else ret false.

(** An entry of [request.files]. *)
Record FileStorage := { filename : str; stream : list N }.

(** werkzeug's part in an upload: [secure_filename], and [f.save(path)],
    which returns or raises with a detail. *)
Record Werkzeug := {
  secure_filename : str -> str;
  save : str -> list N -> str + unit
}.

(** What a successful upload has done: the bytes written, where, and the
    file name of the redirect to [/analysis]. *)
Record stored := {
  stored_path : str;
  stored_bytes : list N;
  redirect_filename : str
}.

(** The view function of [/upload]; [f] is
    [request.files.get('resume')]. *)
Definition upload (env : Env) (wz : Werkzeug) (f : option FileStorage)
  : M stored :=
  match f with
  | None => abort 400 (of_string "No file selected")
  | Some f =>
      if negb (Py.truthy (filename f))
      then abort 400 (of_string "No file selected")
      else
        ok <- allowed_file (filename f) ;;
        if negb ok then abort 400 (of_string "Invalid file type")
        else
          let fname := secure_filename wz (filename f) in
          let path := os_path_join (UPLOAD_FOLDER env) fname in
          _ <- lib (save wz path (stream f)) ;;
          ret {| stored_path := path; stored_bytes := stream f;
                 redirect_filename := fname |}
  end.

(** The two aborts of [upload]. *)
Definition no_file_selected : HTTPError :=
  {| code := 400; description := of_string "No file selected" |}.
Definition invalid_file_type : HTTPError :=
  {| code := 400; description := of_string "Invalid file type" |}.




(** ** More vocabulary *)

(** A file name with a last extension that is allowed, in any letter
    case. *)
Definition has_allowed_extension (name : str) : Prop :=
  exists stem ext,
    name = stem ++ 46%N :: ext
    /\ ~ In 46%N ext
    /\ In (Py.lower ext) ALLOWED_EXTENSIONS.

(** The text holds a match of [\d[\d ()-]{7,}]. *)
Definition phone_match (text : str) : Prop :=
  exists pre d tail post,
    text = pre ++ d :: tail ++ post
    /\ Re.isdigit d = true
    /\ length tail = 7%nat
    /\ forallb Re.phone_tail tail = true.

(** The text holds a match of [[\w.+-]+@[\w-]+\.[\w.-]+]: one code
    point of the local part, the at sign, a domain label, a dot and one
    more code point are enough, since every [+] can stop early. *)
Definition email_match (isalnum : N -> bool) (text : str) : Prop :=
  exists pre l label c post,
    text = pre ++ l :: 64%N :: label ++ 46%N :: c :: post
    /\ (Re.word isalnum l || Py.mem l (of_string ".+-")) = true
    /\ label <> []
    /\ forallb (fun x => Re.word isalnum x || (x =? 45)%N) label = true
    /\ (Re.word isalnum c || Py.mem c (of_string ".-")) = true.

(** The last code point of [pre], or [prev] when [pre] is empty. *)
Definition last_before (prev : option N) (pre : str) : option N :=
  match rev pre with
  | [] => prev
  | c :: _ => Some c
  end.

(** The text holds one of the words [ws] between two word boundaries. *)
Definition word_match (isalnum : N -> bool) (ws : list str) (t : str)
  : Prop :=
  exists pre w post,
    In w ws
    /\ t = pre ++ w ++ post
    /\ Re.boundary isalnum (last_before None pre) (hd_error (w ++ post)) = true
    /\ Re.boundary isalnum (hd_error (rev w)) (hd_error post) = true.

(** The places of a text where the camel-case repair puts a space. *)
Fixpoint transitions (s : str) : nat :=
  match s with
  | a :: (b :: _) as t =>
      (if Re.islower_az a && Re.isupper_AZ b then 1 else 0) + transitions t
  | _ => 0
  end.

Definition not_space (c : N) : bool := negb (c =? 32)%N.

(** [s.split()]: the runs of code points between white space. *)
Fixpoint split_from (cur s : str) : list str :=
  match s with
  | [] => match cur with [] => [] | _ => [cur] end
  | c :: t =>
      if Py.isspace c
      then match cur with
           | [] => split_from [] t
           | _ => cur :: split_from [] t
           end
      else split_from (cur ++ [c]) t
  end.

(** werkzeug's [secure_filename] on POSIX, for the examples: the name
    loses what is not ASCII, a slash becomes a space, the runs between
    white space are joined by "_", every code point outside
    [[A-Za-z0-9_.-]] is removed, and dots and underscores are stripped
    from both ends.  The library first replaces each code point by its
    compatibility decomposition, which is not modelled: this function
    is the library's on names of ASCII code points. *)
Definition secure_filename_posix (name : str) : str :=
  let ascii := filter (fun c => (c <? 128)%N) name in
  let spaced := map (fun c => if (c =? 47)%N then 32%N else c) ascii in
  let joined := Py.join (of_string "_") (split_from [] spaced) in
  Py.strip_chars (of_string "._")
    (filter (fun c => ascii_alnum c || Py.mem c (of_string "_.-")) joined).
Definition disk : Werkzeug :=
  {| secure_filename := secure_filename_posix; save := fun _ _ => inr tt |}.

(** A-Z to a-z, every other code point as it is. *)
Definition ascii_lower (c : N) : N :=
  if (65 <=? c)%N && (c <=? 90)%N then (c + 32)%N else c.

(** A world with the upload folder [folder] in which [textract] reads
    [content] at the one path [file]; the provider answers [answer]. *)
Definition world_with (folder file content : str) (answer : str + str)
  : Env :=
  {| UPLOAD_FOLDER := folder;
     pdfplumber_open := fun _ => inl (of_string "No such file or directory");
     docx_Document := fun _ => inl (of_string "Package not found");
     textract_process := fun path =>
       if str_eqb path file then inr content
       else inl (of_string "The file does not exist");
     generate_content := fun _ => answer;
     isalnum := ascii_alnum |}.

(** The detail of an exception that parses to nothing: one line, no
    match of the score pattern, no field word. *)
Definition quiet (detail : str) : Prop :=
  forallb (fun c => negb (Py.islinebreak c)) detail = true
  /\ Re.search_score detail = None
  /\ names_field detail = false.

(** A text without a line boundary. *)
Definition one_line (s : str) : Prop :=
  forall c, In c s -> Py.islinebreak c = false.

(** A text without white space at either end. *)
Definition trimmed (s : str) : Prop :=
  match s with [] => True | c :: _ => Py.isspace c = false end
  /\ match rev s with [] => True | c :: _ => Py.isspace c = false end.

(** [criteria[name]], when the key is there. *)
Fixpoint criterion (name : string) (criteria : list (string * bool))
  : option bool :=
  match criteria with
  | [] => None
  | (k, b) :: rest => if String.eqb k name then Some b else criterion name rest
  end.

(** The text of a page: [p.extract_text() or ""]. *)
Definition page_text (p : pdf_page) : str :=
  match extract_text p with Some t => t | None => [] end.

(** The three classes of the e-mail pattern: [[\w.+-]], [[\w-]] and
    [[\w.-]]. *)
Definition email_local (isalnum : N -> bool) (c : N) : bool :=
  Re.word isalnum c || Py.mem c (of_string ".+-").
Definition email_label (isalnum : N -> bool) (c : N) : bool :=
  Re.word isalnum c || (c =? 45)%N.
Definition email_tail (isalnum : N -> bool) (c : N) : bool :=
  Re.word isalnum c || Py.mem c (of_string ".-").

(** * Properties *)

(** ** Stripping and splitting *)
Section StripFacts.
Variable p : N -> bool.

Lemma lstrip_by_head (s : str) (c : N) (t : str) :
  Py.lstrip_by p s = c :: t -> p c = false.
Proof.
  induction s as [|a s IH]; simpl; [discriminate|].
  destruct (p a) eqn:Ha; auto.
  intros E; injection E as -> _; exact Ha.
Qed.

Lemma lstrip_by_In (s : str) (c : N) :
  In c (Py.lstrip_by p s) -> In c s.
Proof.
  induction s as [|a s IH]; simpl; auto.
  destruct (p a); simpl; auto.
Qed.

Lemma lstrip_by_snoc (s : str) (c : N) :
  p c = false -> Py.lstrip_by p (s ++ [c]) = Py.lstrip_by p s ++ [c].
Proof.
  intros Hc; induction s as [|a s IH]; simpl.
  - now rewrite Hc.
  - destruct (p a); auto.
Qed.

Lemma lstrip_by_all (s : str) :
  forallb p s = true -> Py.lstrip_by p s = [].
Proof.
  induction s as [|a s IH]; simpl; auto.
  destruct (p a); simpl; auto; discriminate.
Qed.

Lemma strip_by_cons (c : N) (t : str) :
  p c = false -> Py.strip_by p (c :: t) = c :: Py.rstrip_by p t.
Proof.
  intros Hc; unfold Py.strip_by, Py.rstrip_by; simpl.
  rewrite Hc; simpl.
  now rewrite lstrip_by_snoc, rev_app_distr.
Qed.

Lemma strip_by_all (s : str) :
  forallb p s = true -> Py.strip_by p s = [].
Proof.
  intros H; unfold Py.strip_by, Py.rstrip_by.
  now rewrite (lstrip_by_all _ H).
Qed.

Lemma rstrip_by_In (s : str) (c : N) :
  In c (Py.rstrip_by p s) -> In c s.
Proof.
  unfold Py.rstrip_by; intros H.
  apply in_rev in H. apply lstrip_by_In in H. now apply in_rev.
Qed.
End StripFacts.

(** Stripping by [w] after stripping by [q] changes nothing when every
    code point of the text that [w] strips is one that [q] strips. *)
Lemma lstrip_by_absorbs (q w : N -> bool) (s : str) :
  (forall c, In c s -> q c = false -> w c = false) ->
  Py.lstrip_by w (Py.lstrip_by q s) = Py.lstrip_by q s.
Proof.
  intros Hw.
  destruct (Py.lstrip_by q s) as [|c a] eqn:E; [reflexivity|].
  simpl. rewrite Hw; auto.
  - apply (lstrip_by_In q). rewrite E; now left.
  - exact (lstrip_by_head q s c a E).
Qed.

Lemma strip_by_absorbs (q w : N -> bool) (s : str) :
  (forall c, In c s -> w c = true -> q c = true) ->
  Py.strip_by w (Py.strip_by q s) = Py.strip_by q s.
Proof.
  intros Hs.
  assert (Hw : forall c, In c s -> q c = false -> w c = false).
  { intros c Hc Hq; destruct (w c) eqn:E; auto.
    rewrite (Hs c Hc E) in Hq; discriminate. }
  unfold Py.strip_by at 2 3.
  destruct (Py.lstrip_by q s) as [|c a] eqn:Ea; [reflexivity|].
  pose proof (lstrip_by_head q s c a Ea) as Hqc.
  assert (Hin : forall x, In x (c :: a) -> In x s).
  { intros x Hx; apply (lstrip_by_In q); now rewrite Ea. }
  assert (E : Py.rstrip_by q (c :: a) = c :: Py.rstrip_by q a).
  { unfold Py.rstrip_by; simpl.
    now rewrite lstrip_by_snoc, rev_app_distr. }
  rewrite E, strip_by_cons by (apply Hw; [apply Hin; now left|exact Hqc]).
  f_equal. unfold Py.rstrip_by. rewrite rev_involutive. f_equal.
  apply lstrip_by_absorbs.
  intros x Hx; apply Hw, Hin; right; now apply in_rev.
Qed.

Lemma splitlines_from_one (cur s : str) :
  forallb (fun c => negb (Py.islinebreak c)) s = true ->
  Py.splitlines_from cur s =
    match cur ++ s with [] => [] | _ => [cur ++ s] end.
Proof.
  revert cur; induction s as [|c s IH]; intros cur H; simpl in *.
  - now rewrite app_nil_r.
  - apply andb_true_iff in H as [Hc Hs].
    apply negb_true_iff in Hc; rewrite Hc.
    rewrite IH by exact Hs. now rewrite <- app_assoc.
Qed.

(** ** The loops as comprehensions *)

Lemma suggestions_loop_spec (lines : list str) (acc : list str) :
  suggestions_loop lines acc = acc ++ map item (filter dashed lines).
Proof.
  unfold suggestions_loop.
  revert acc; induction lines as [|ln lines IH]; intros acc; simpl.
  - now rewrite app_nil_r.
  - rewrite IH. destruct (dashed ln); simpl; auto.
    now rewrite <- app_assoc.
Qed.

Lemma last_cons {A} (x d : A) (l : list A) : last (x :: l) d = last l x.
Proof.
  revert x d; induction l as [|y l IH]; intros x d; [reflexivity|].
  rewrite (IH y x).
  change (last (x :: y :: l) d) with (last (y :: l) d).
  apply IH.
Qed.

Lemma jobs_loop_spec (lines : list str) (roles : list str) (field : str) :
  fold_left jobs_step lines (roles, field) =
    (roles ++ map item (filter dashed lines),
     last (map Py.strip (filter field_line lines)) field).
Proof.
  revert roles field; induction lines as [|ln lines IH]; intros roles field.
  - simpl. now rewrite app_nil_r.
  - change (fold_left jobs_step (ln :: lines) (roles, field))
      with (fold_left jobs_step lines (jobs_step (roles, field) ln)).
    unfold jobs_step, field_line. simpl filter.
    destruct (dashed ln) eqn:Hd; simpl negb; simpl andb.
    + fold jobs_step. rewrite IH. simpl. now rewrite <- app_assoc.
    + fold jobs_step.
      destruct (names_field ln) eqn:Hf; rewrite IH; [|reflexivity].
      simpl map. now rewrite last_cons.
Qed.

Lemma score_loop_none (lines : list str) (score : Z) :
  (forall ln, In ln lines -> Re.search_score ln = None) ->
  score_loop lines score = score.
Proof.
  induction lines as [|ln lines IH]; intros H; simpl; auto.
  rewrite (H ln (or_introl eq_refl)). apply IH.
  intros l Hl; apply H; now right.
Qed.

Lemma score_loop_first (pre : list str) (ln : str) (post : list str)
      (g : str) (score : Z) :
  (forall l, In l pre -> Re.search_score l = None) ->
  Re.search_score ln = Some g ->
  score_loop (pre ++ ln :: post) score = Re.int g.
Proof.
  intros Hpre Hln; induction pre as [|a pre IH]; simpl.
  - now rewrite Hln.
  - rewrite (Hpre a (or_introl eq_refl)). apply IH.
    intros l Hl; apply Hpre; now right.
Qed.

(** ** The score pattern *)

Lemma digit_value_bound (c : N) (d : Z) :
  Re.digit_value c = Some d -> (0 <= d <= 9)%Z.
Proof.
  unfold Re.digit_value.
  destruct (find _ Re.decimal_zeros) as [z|] eqn:E; [|discriminate].
  apply find_some in E as [_ E].
  apply andb_true_iff in E as [E1 E2].
  apply N.leb_le in E1. apply N.ltb_lt in E2.
  intros [= <-]. lia.
Qed.

Lemma digits_upto_length (n : nat) (s g r : str) :
  Re.digits_upto n s = (g, r) -> (length g <= n)%nat.
Proof.
  revert s g r; induction n as [|n IH]; intros s g r; simpl.
  - destruct s; intros [= <- _]; simpl; lia.
  - destruct s as [|c t]; [intros [= <- _]; simpl; lia|].
    destruct (Re.isdigit c); [|intros [= <- _]; simpl; lia].
    destruct (Re.digits_upto n t) as [g' r'] eqn:E.
    intros [= <- _]. simpl. apply IH in E. lia.
Qed.

Lemma int_bound (g : str) : (length g <= 3)%nat -> (0 <= Re.int g <= 999)%Z.
Proof.
  unfold Re.int.
  destruct g as [|a [|b [|c [|d g]]]]; cbn [fold_left length];
    intros H; try lia;
    repeat match goal with
           | |- context [Re.digit_value ?x] =>
               let E := fresh "E" in
               destruct (Re.digit_value x) eqn:E;
               [apply digit_value_bound in E|]
           end; lia.
Qed.

Lemma digits_upto_spec (n : nat) (s g r : str) :
  Re.digits_upto n s = (g, r) ->
  s = g ++ r /\ forallb Re.isdigit g = true.
Proof.
  revert s g r; induction n as [|n IH]; intros s g r; simpl.
  - destruct s; intros [= <- <-]; auto.
  - destruct s as [|c t]; [intros [= <- <-]; auto|].
    destruct (Re.isdigit c) eqn:Ec; [|intros [= <- <-]; auto].
    destruct (Re.digits_upto n t) as [g' r'] eqn:E.
    intros [= <- <-]. destruct (IH _ _ _ E) as [-> Hg].
    simpl. now rewrite Ec, Hg.
Qed.

Lemma digits_upto_app (n : nat) (g r : str) :
  forallb Re.isdigit g = true -> (length g <= n)%nat ->
  match r with c :: _ => Re.isdigit c = false | [] => True end ->
  Re.digits_upto n (g ++ r) = (g, r).
Proof.
  revert g; induction n as [|n IH]; intros g Hg Hn Hr.
  - destruct g; [|simpl in Hn; lia]. simpl. now destruct r.
  - destruct g as [|c g]; simpl.
    + destruct r as [|c r]; [reflexivity|]. now rewrite Hr.
    + simpl in Hg, Hn. apply andb_true_iff in Hg as [Hc Hg].
      rewrite Hc, IH; auto. lia.
Qed.

Lemma space_not_digit (c : N) : Py.isspace c = true -> Re.isdigit c = false.
Proof.
  unfold Py.isspace, Py.mem. intros H.
  apply existsb_exists in H as (x & Hx & E).
  apply N.eqb_eq in E; subst x.
  repeat (destruct Hx as [<-|Hx]; [reflexivity|]). destruct Hx.
Qed.

Lemma spaces_split (s : str) :
  exists ws, s = ws ++ Re.spaces s /\ forallb Py.isspace ws = true.
Proof.
  unfold Re.spaces. induction s as [|c s (ws & E & H)]; simpl.
  - now exists [].
  - destruct (Py.isspace c) eqn:Ec.
    + exists (c :: ws). split.
      * simpl. now rewrite <- E.
      * simpl. now rewrite Ec, H.
    + now exists [].
Qed.

Lemma spaces_app (ws s : str) :
  forallb Py.isspace ws = true -> Re.spaces (ws ++ s) = Re.spaces s.
Proof.
  unfold Re.spaces. induction ws as [|c ws IH]; simpl; auto.
  intros H. apply andb_true_iff in H as [-> H]. auto.
Qed.

Lemma literals_spec (sets : list (list N)) (s s1 : str) :
  Re.literals sets s = Some s1 <->
  exists w, s = w ++ s1 /\ Forall2 (fun c cs => Py.mem c cs = true) w sets.
Proof.
  revert s; induction sets as [|cs sets IH]; intros s; simpl.
  - split.
    + destruct s; intros [= <-]; exists []; auto.
    + intros (w & -> & H). inversion H; subst. now destruct s1.
  - destruct s as [|c s].
    + split; [discriminate|]. intros (w & E & H).
      inversion H; subst. discriminate.
    + destruct (Py.mem c cs) eqn:Ec.
      * rewrite IH. split.
        -- intros (w & -> & H). exists (c :: w). auto.
        -- intros (w & E & H). inversion H; subst.
           injection E as <- ->. eauto.
      * split; [discriminate|]. intros (w & E & H).
        inversion H; subst. injection E as <- ->.
        cbv beta in *. congruence.
Qed.

Lemma expect_spec (c : N) (s t : str) :
  Re.expect c s = Some t <-> s = c :: t.
Proof.
  unfold Re.expect. destruct s as [|x s]; [split; discriminate|].
  destruct (x =? c)%N eqn:E.
  - apply N.eqb_eq in E; subst. split; intros [= ->]; reflexivity.
  - apply N.eqb_neq in E. split; [discriminate|]. intros [= -> _]. congruence.
Qed.

(** [Re.score_at] accepts exactly the texts that begin with a match of
    the pattern, and returns the group of the match. *)
Lemma score_at_iff (s g : str) :
  Re.score_at s = Some g <-> score_match s g.
Proof.
  unfold Re.score_at, score_match. split.
  - destruct (Re.literals Re.Score s) as [s1|] eqn:E1; [|discriminate].
    apply literals_spec in E1 as (w & -> & Hw).
    destruct (Re.expect 58 (Re.spaces s1)) as [s2|] eqn:E2; [|discriminate].
    apply expect_spec in E2.
    destruct (spaces_split s1) as (ws1 & Es1 & H1). rewrite E2 in Es1.
    destruct (Re.digits_upto 3 (Re.spaces s2)) as [g' s3] eqn:E3.
    pose proof (digits_upto_length _ _ _ _ E3) as Hlen.
    apply digits_upto_spec in E3 as [E3 Hg].
    destruct (spaces_split s2) as (ws2 & Es2 & H2). rewrite E3 in Es2.
    destruct g' as [|d g']; [discriminate|].
    destruct (Re.expect 47 (Re.spaces s3)) as [s4|] eqn:E4; [|discriminate].
    apply expect_spec in E4.
    destruct (spaces_split s3) as (ws3 & Es3 & H3). rewrite E4 in Es3.
    destruct (Py.startswith (of_string "100") (Re.spaces s4)) eqn:E5;
      [|discriminate].
    destruct (spaces_split s4) as (ws4 & Es4 & H4).
    change (of_string "100") with [49; 48; 48]%N in E5.
    destruct (Re.spaces s4) as [|c1 [|c2 [|c3 rest]]];
      cbn [Py.startswith] in E5; try rewrite !andb_false_r in E5;
      try discriminate E5.
    apply andb_true_iff in E5 as [Ea E5]. apply andb_true_iff in E5 as [Eb E5].
    apply andb_true_iff in E5 as [Ec _].
    apply N.eqb_eq in Ea, Eb, Ec. subst c1 c2 c3.
    intros [= <-]. change [49; 48; 48]%N with (of_string "100") in *.
    exists w, ws1, ws2, ws3, ws4, rest.
    split; [|split; [exact Hw|split; [|split; [simpl in *; lia|exact Hg]]]].
    + rewrite Es1, Es2, Es3, Es4. reflexivity.
    + now rewrite !forallb_app, H1, H2, H3, H4.
  - intros (w & ws1 & ws2 & ws3 & ws4 & rest & -> & Hw & Hs & Hlen & Hg).
    rewrite !forallb_app in Hs.
    apply andb_true_iff in Hs as [H1 Hs]. apply andb_true_iff in Hs as [H2 Hs].
    apply andb_true_iff in Hs as [H3 H4].
    rewrite (proj2 (literals_spec Re.Score _ _)) by eauto.
    rewrite spaces_app by exact H1.
    cbn [Re.spaces Py.lstrip_by]. change (Py.isspace 58) with false.
    cbn [Re.expect]. rewrite N.eqb_refl.
    rewrite spaces_app by exact H2.
    destruct g as [|d g]; [simpl in Hlen; lia|].
    pose proof Hg as Hd. simpl in Hd. apply andb_true_iff in Hd as [Hd _].
    assert (Hsp : Py.isspace d = false).
    { destruct (Py.isspace d) eqn:E; auto.
      apply space_not_digit in E. congruence. }
    rewrite <- app_comm_cons.
    cbn [Re.spaces Py.lstrip_by]. rewrite Hsp.
    rewrite app_comm_cons.
    rewrite digits_upto_app; [|exact Hg|lia|].
    + rewrite spaces_app by exact H3.
      cbn [Re.spaces Py.lstrip_by]. change (Py.isspace 47) with false.
      cbn [Re.expect]. rewrite N.eqb_refl.
      rewrite spaces_app by exact H4. reflexivity.
    + destruct ws3 as [|c ws3]; [reflexivity|].
      simpl in H3. apply andb_true_iff in H3 as [H3 _].
      now apply space_not_digit.
Qed.

Lemma score_at_group (s g : str) :
  Re.score_at s = Some g -> (length g <= 3)%nat.
Proof.
  intros H. apply score_at_iff in H.
  destruct H as (w & ws1 & ws2 & ws3 & ws4 & rest & _ & _ & _ & H & _). lia.
Qed.

Lemma search_score_unfold (ln : str) :
  Re.search_score ln
  = match Re.score_at ln with
    | Some g => Some g
    | None => match ln with
              | [] => None
              | _ :: t => Re.search_score t
              end
    end.
Proof. destruct ln; reflexivity. Qed.

(** A line matches the score pattern when one of its suffixes begins
    with a match. *)
Lemma search_score_matches (ln : str) :
  (exists g, Re.search_score ln = Some g) <->
  (exists pre suf g, ln = pre ++ suf /\ score_match suf g).
Proof.
  split.
  - induction ln as [|c ln IH]; intros [g H];
      rewrite search_score_unfold in H.
    + discriminate.
    + destruct (Re.score_at (c :: ln)) as [g'|] eqn:E.
      * exists [], (c :: ln), g'. split; [reflexivity|].
        now apply score_at_iff.
      * destruct (IH (ex_intro _ g H)) as (pre & suf & g0 & -> & Hm).
        exists (c :: pre), suf, g0. auto.
  - intros (pre & suf & g & -> & Hm). apply score_at_iff in Hm.
    induction pre as [|c pre IH]; rewrite search_score_unfold.
    + simpl. rewrite Hm. eauto.
    + destruct (Re.score_at ((c :: pre) ++ suf)); eauto.
Qed.

Lemma search_score_group (ln g : str) :
  Re.search_score ln = Some g -> (length g <= 3)%nat.
Proof.
  induction ln as [|c ln IH]; simpl.
  - discriminate.
  - destruct (Re.score_at (c :: ln)) eqn:E; [|exact IH].
    intros [= <-]. now apply score_at_group in E.
Qed.

Lemma score_loop_bound (lines : list str) :
  (0 <= score_loop lines 0 <= 999)%Z.
Proof.
  induction lines as [|ln lines IH]; simpl; [lia|].
  destruct (Re.search_score ln) as [g|] eqn:E; [|exact IH].
  apply int_bound. now apply search_score_group in E.
Qed.

(** ** Checks of the score pattern on sample lines *)

Example search_score_plain :
  Re.search_score (of_string "Score: 85/100") = Some (of_string "85").
Proof. reflexivity. Qed.

Example search_score_ignores_case_and_space :
  Re.search_score (of_string "Overall SCORE :  7 / 100 points")
  = Some (of_string "7").
Proof. reflexivity. Qed.

Example search_score_four_digits :
  Re.search_score (of_string "Score: 1234/100") = None.
Proof. reflexivity. Qed.

Example search_score_other_total :
  Re.search_score (of_string "Score: 85/10") = None.
Proof. reflexivity. Qed.

(** ** What the parsers return *)

Lemma suggestions_reply (raw : str) :
  snd (score_and_suggest_reply raw)
  = firstn 5 (map item (filter dashed (Py.splitlines raw))).
Proof.
  unfold score_and_suggest_reply; simpl.
  now rewrite suggestions_loop_spec.
Qed.

Lemma recommend_jobs_reply_spec (raw : str) :
  recommend_jobs_reply raw
  = (firstn 5 (map item (filter dashed (Py.splitlines raw))),
     last (map Py.strip (filter field_line (Py.splitlines raw)))
          Not_identified).
Proof.
  unfold recommend_jobs_reply. now rewrite jobs_loop_spec.
Qed.

Lemma filter_none {A} (f : A -> bool) (l : list A) :
  (forall x, In x l -> f x = false) -> filter f l = [].
Proof.
  induction l as [|a l IH]; intros H; simpl; auto.
  rewrite (H a (or_introl eq_refl)). apply IH.
  intros x Hx; apply H; now right.
Qed.

(** C1, as the code has it: the field is the last line of the reply
    that is not dash-prefixed and contains "industry" or "field" in any
    letter case, without its surrounding white space; a reply with no
    line that contains either word gives "Not identified"; the reply
    "Field: Software Engineering" gives that line. *)
Theorem recommend_jobs_field_is_last_plain_line :
  (forall raw,
      snd (recommend_jobs_reply raw)
      = last (map Py.strip (filter field_line (Py.splitlines raw)))
             Not_identified)
  /\ (forall raw,
         (forall ln, In ln (Py.splitlines raw) -> names_field ln = false) ->
         snd (recommend_jobs_reply raw) = Not_identified)
  /\ snd (recommend_jobs_reply (of_string "Field: Software Engineering"))
     = of_string "Field: Software Engineering".
Proof.
  split; [|split].
  - intros raw. now rewrite recommend_jobs_reply_spec.
  - intros raw H. rewrite recommend_jobs_reply_spec; simpl.
    rewrite filter_none; [reflexivity|].
    intros ln Hln. unfold field_line. rewrite (H ln Hln).
    apply andb_false_r.
  - reflexivity.
Qed.

Lemma recommend_jobs_field_is_last_plain_line_witness :
  (forall ln, In ln (Py.splitlines (of_string "Data Analyst")) ->
              names_field ln = false)
  /\ snd (recommend_jobs_reply (of_string "Data Analyst")) = Not_identified.
Proof.
  assert (H : forall ln, In ln (Py.splitlines (of_string "Data Analyst")) ->
                         names_field ln = false).
  { intros ln [<-|[]]. reflexivity. }
  split; [exact H|].
  exact (proj1 (proj2 recommend_jobs_field_is_last_plain_line)
               (of_string "Data Analyst") H).
Defined.

(** C1 as worded fails: the first line below contains "field", a later
    line contains "industry", and the later one is returned.  A
    dash-prefixed line is a job role and never the field, and the field
    is the line without its surrounding white space. *)
Lemma recommend_jobs_field_not_first_line :
  let raw := of_string "Field: Software Engineering" ++ nl
             ++ of_string "Industry: IT" in
  In (of_string "Field: Software Engineering") (Py.splitlines raw)
  /\ first_field_line raw = of_string "Field: Software Engineering"
  /\ snd (recommend_jobs_reply raw) = of_string "Industry: IT"
  /\ snd (recommend_jobs_reply raw) <> first_field_line raw
  /\ snd (recommend_jobs_reply (of_string "- Field: Robotics"))
     <> first_field_line (of_string "- Field: Robotics")
  /\ snd (recommend_jobs_reply (of_string "  Field: Robotics"))
     <> first_field_line (of_string "  Field: Robotics").
Proof.
  repeat split; try (now left); vm_compute; discriminate.
Qed.

(** C2, as the code has it: the score is an integer between 0 and 999,
    and it is 0 when no line of the reply matches the score pattern. *)
Theorem score_between_0_and_999 (raw : str) :
  (0 <= fst (score_and_suggest_reply raw) <= 999)%Z
  /\ ((forall ln, In ln (Py.splitlines raw) -> Re.search_score ln = None) ->
      fst (score_and_suggest_reply raw) = 0%Z).
Proof.
  unfold score_and_suggest_reply; simpl. split.
  - apply score_loop_bound.
  - apply score_loop_none.
Qed.

Lemma score_between_0_and_999_witness :
  (forall ln, In ln (Py.splitlines (of_string "Looks fine.")) ->
              Re.search_score ln = None)
  /\ fst (score_and_suggest_reply (of_string "Looks fine.")) = 0%Z.
Proof.
  assert (H : forall ln, In ln (Py.splitlines (of_string "Looks fine.")) ->
                         Re.search_score ln = None).
  { intros ln [<-|[]]. reflexivity. }
  split; [exact H|].
  exact (proj2 (score_between_0_and_999 (of_string "Looks fine.")) H).
Defined.

(** C2 as worded fails: a reply line "Score: 150/100" matches the
    pattern and gives the score 150. *)
Lemma score_above_100 :
  ~ (0 <= fst (score_and_suggest_reply (of_string "Score: 150/100")) <= 100)%Z.
Proof. vm_compute. intros [_ H]. apply H. reflexivity. Qed.

(** ** Items of dash-prefixed lines *)

Lemma rstrip_by_cons (p : N -> bool) (c : N) (t : str) :
  p c = false -> Py.rstrip_by p (c :: t) = c :: Py.rstrip_by p t.
Proof.
  intros Hc. unfold Py.rstrip_by; simpl.
  now rewrite lstrip_by_snoc, rev_app_distr.
Qed.

Lemma lstrip_spaces_to_dash (ln : str) :
  forallb dash_or_space ln = true -> In 45%N ln ->
  exists t, Py.lstrip_by Py.isspace ln = 45%N :: t.
Proof.
  induction ln as [|c ln IH]; simpl; [intros _ []|].
  intros H Hin. apply andb_true_iff in H as [Hc Hln].
  unfold dash_or_space, Py.mem in Hc; simpl in Hc.
  rewrite orb_false_r in Hc. apply orb_true_iff in Hc as [Hc|Hc];
    apply N.eqb_eq in Hc; subst c.
  - exists ln. reflexivity.
  - destruct Hin as [Hin|Hin]; [discriminate|].
    change (Py.isspace 32) with true. cbv iota. now apply IH.
Qed.

Lemma dashes_and_spaces_item (ln : str) :
  forallb dash_or_space ln = true -> In 45%N ln ->
  dashed ln = true /\ item ln = [].
Proof.
  intros H Hin. split.
  - destruct (lstrip_spaces_to_dash ln H Hin) as [t Ht].
    unfold dashed, Py.strip, Py.strip_by. rewrite Ht.
    now rewrite rstrip_by_cons.
  - unfold item, Py.strip_chars.
    change (fun c => Py.mem c (of_string "- ")) with dash_or_space.
    now rewrite strip_by_all.
Qed.

Lemma item_of_plain_line (ln : str) :
  (forall c, In c ln -> Py.isspace c = true -> c = 32%N) ->
  item ln = undashed ln.
Proof.
  intros H. unfold item, undashed, Py.strip, Py.strip_chars.
  apply strip_by_absorbs.
  intros c Hc Hs. now rewrite (H c Hc Hs).
Qed.

(** C10, as the code has it: every parsed suggestion, grammar error and
    job role is its reply line without its leading and trailing dashes
    and spaces and then without the white space left at either end; on a
    line whose only white space is the space this is the line without
    its leading and trailing dashes and spaces.  "- item -" gives
    "item"; a line of dashes and spaces only is dash-prefixed and gives
    the empty text, which takes one of the five places. *)
Theorem items_strip_dashes_then_white_space :
  (forall raw,
      let lines := filter dashed (Py.splitlines raw) in
      snd (score_and_suggest_reply raw)
      = firstn 5 (map (fun ln => Py.strip (undashed ln)) lines)
      /\ grammar_errors_reply raw
         = map (fun ln => Py.strip (undashed ln)) lines
      /\ fst (recommend_jobs_reply raw)
         = firstn 5 (map (fun ln => Py.strip (undashed ln)) lines))
  /\ (forall ln,
         (forall c, In c ln -> Py.isspace c = true -> c = 32%N) ->
         Py.strip (undashed ln) = undashed ln)
  /\ item (of_string "- item -") = of_string "item"
  /\ (forall ln,
         forallb dash_or_space ln = true -> In 45%N ln ->
         dashed ln = true /\ item ln = [])
  /\ snd (score_and_suggest_reply
            (of_string "--" ++ nl ++ of_string "- -" ++ nl ++ of_string "-"
             ++ nl ++ of_string " - " ++ nl ++ of_string "---" ++ nl
             ++ of_string "- proofread"))
     = [[]; []; []; []; []].
Proof.
  split; [|split; [|split; [|split]]].
  - intros raw lines. subst lines. split; [|split].
    + apply suggestions_reply.
    + reflexivity.
    + now rewrite recommend_jobs_reply_spec.
  - apply item_of_plain_line.
  - reflexivity.
  - apply dashes_and_spaces_item.
  - reflexivity.
Qed.

Lemma items_strip_dashes_then_white_space_witness :
  Py.strip (undashed (of_string "- fix typos -"))
  = undashed (of_string "- fix typos -")
  /\ dashed (of_string " - - ") = true /\ item (of_string " - - ") = [].
Proof.
  split.
  - apply (proj1 (proj2 items_strip_dashes_then_white_space)).
    intros c Hc Hs.
    repeat (destruct Hc as [<-|Hc]; [first [reflexivity|discriminate]|]).
    destruct Hc.
  - apply (proj1 (proj2 (proj2 (proj2 items_strip_dashes_then_white_space)))).
    + reflexivity.
    + right; left; reflexivity.
Defined.

(** C10 as worded fails: in a bullet indented by a tab the tab shields
    the dash from the first stripping and the item keeps its dash. *)
Lemma item_of_tab_indented_line :
  let ln := 9%N :: of_string "- item" in
  grammar_errors_reply ln = [of_string "- item"]
  /\ snd (score_and_suggest_reply ln) = [of_string "- item"]
  /\ fst (recommend_jobs_reply ln) = [of_string "- item"]
  /\ grammar_errors_reply ln <> [undashed ln].
Proof.
  repeat split. vm_compute. discriminate.
Qed.

(** ** Camel-case repair *)

Lemma no_transition_cons (a : N) (s : str) :
  no_transition (a :: s)
  = match hd_error s with
    | Some b => negb (Re.islower_az a && Re.isupper_AZ b)
    | None => true
    end && no_transition s.
Proof. destruct s; reflexivity. Qed.

Lemma sub_camel_hd (s : str) : hd_error (Re.sub_camel s) = hd_error s.
Proof.
  destruct s as [|a [|b rest]]; simpl; auto.
  destruct (Re.islower_az a && Re.isupper_AZ b); reflexivity.
Qed.

Lemma upper_not_lower (b : N) : Re.isupper_AZ b = true -> Re.islower_az b = false.
Proof.
  unfold Re.isupper_AZ, Re.islower_az. intros H.
  apply andb_true_iff in H as [_ H]. apply N.leb_le in H.
  apply andb_false_iff; left. apply N.leb_gt. lia.
Qed.

Lemma sub_camel_no_transition (s : str) :
  no_transition (Re.sub_camel s) = true.
Proof.
  remember (length s) as n eqn:Hn.
  revert s Hn; induction n as [n IH] using lt_wf_ind; intros s Hn.
  destruct s as [|a [|b rest]]; [reflexivity|reflexivity|].
  change (Re.sub_camel (a :: b :: rest))
    with (if Re.islower_az a && Re.isupper_AZ b
          then a :: 32%N :: b :: Re.sub_camel rest
          else a :: Re.sub_camel (b :: rest)).
  destruct (Re.islower_az a && Re.isupper_AZ b) eqn:E.
  - apply andb_true_iff in E as [_ Hb].
    rewrite !no_transition_cons, sub_camel_hd. cbn [hd_error].
    rewrite (IH (length rest)) with (s := rest); [|simpl in Hn; lia|reflexivity].
    rewrite (upper_not_lower b Hb).
    change (Re.isupper_AZ 32) with false. change (Re.islower_az 32) with false.
    rewrite andb_false_r. simpl. now destruct (hd_error rest).
  - rewrite no_transition_cons, sub_camel_hd. cbn [hd_error].
    rewrite E. cbn [negb andb].
    apply (IH (length (b :: rest))); [simpl in *; lia|reflexivity].
Qed.

Lemma sub_camel_fixed (s : str) :
  no_transition s = true -> Re.sub_camel s = s.
Proof.
  induction s as [|a t IH]; [reflexivity|].
  rewrite no_transition_cons. intros H.
  apply andb_true_iff in H as [Ha Ht].
  destruct t as [|b rest]; [reflexivity|].
  cbn [hd_error] in Ha. apply negb_true_iff in Ha.
  change (Re.sub_camel (a :: b :: rest))
    with (if Re.islower_az a && Re.isupper_AZ b
          then a :: 32%N :: b :: Re.sub_camel rest
          else a :: Re.sub_camel (b :: rest)).
  rewrite Ha. now rewrite IH.
Qed.

(** C7: the camel-case repair is a total function on texts; its result
    has no lower-case letter directly followed by an upper-case one, and
    repairing twice gives what repairing once gives. *)
Theorem camel_case_repair_idempotent (text : str) :
  no_transition (Re.sub_camel text) = true
  /\ Re.sub_camel (Re.sub_camel text) = Re.sub_camel text.
Proof.
  split.
  - apply sub_camel_no_transition.
  - apply sub_camel_fixed, sub_camel_no_transition.
Qed.

Example camel_case_repair_sample :
  Re.sub_camel (of_string "SoftwareEngineer") = of_string "Software Engineer".
Proof. reflexivity. Qed.

(** ** The provider call *)

Lemma ask_gemini_run (env : Env) (prompt : str) (log : list str) :
  ask_gemini env prompt log
  = (Return (provider_reply env prompt), log ++ [prompt]).
Proof.
  unfold ask_gemini, try_except, bind, generate, provider_reply, ret.
  destruct (generate_content env prompt); reflexivity.
Qed.

Lemma marker_line (detail : str) :
  forallb (fun c => negb (Py.islinebreak c)) detail = true ->
  Py.splitlines (error_marker ++ detail) = [error_marker ++ detail].
Proof.
  intros H. unfold Py.splitlines.
  rewrite splitlines_from_one.
  - reflexivity.
  - rewrite forallb_app, H. reflexivity.
Qed.

Lemma marker_not_dashed (detail : str) :
  dashed (error_marker ++ detail) = false.
Proof.
  unfold dashed, Py.strip, error_marker.
  rewrite <- app_comm_cons, strip_by_cons by reflexivity.
  reflexivity.
Qed.

Lemma marker_search_score (detail : str) :
  Re.search_score (error_marker ++ detail) = Re.search_score detail.
Proof. reflexivity. Qed.

Lemma marker_names_field (detail : str) :
  names_field (error_marker ++ detail) = names_field detail.
Proof.
  unfold names_field, Py.lower. rewrite flat_map_app.
  reflexivity.
Qed.

(** C3: a line matches the score pattern when it holds "Score" in any
    letter case, a colon, one to three digits, a slash and "100".
    [score_and_suggest] sends its prompt once and returns a score and
    suggestions read from the reply: the score comes from the first
    line of the reply that matches and is 0 when no line matches; the
    suggestions are the items of the dash-prefixed lines, in order, cut
    to five.  On the reply with the lines "Score: 85/100" and
    "- improve formatting" it returns 85 and ["improve formatting"]. *)
Theorem score_from_first_matching_line :
  (forall ln,
      (exists g, Re.search_score ln = Some g) <->
      (exists pre suf g, ln = pre ++ suf /\ score_match suf g))
  /\ (forall env text log,
         let lines := Py.splitlines (provider_reply env (score_prompt text)) in
         exists score suggestions,
           score_and_suggest env text log
           = (Return (score, suggestions), log ++ [score_prompt text])
           /\ (forall pre ln post g,
                  lines = pre ++ ln :: post ->
                  (forall l, In l pre -> Re.search_score l = None) ->
                  Re.search_score ln = Some g ->
                  score = Re.int g)
           /\ ((forall ln, In ln lines -> Re.search_score ln = None) ->
               score = 0%Z)
           /\ suggestions = firstn 5 (map item (filter dashed lines)))
  /\ (forall env text log,
         generate_content env (score_prompt text)
         = inr (of_string "Score: 85/100" ++ nl
                ++ of_string "- improve formatting") ->
         score_and_suggest env text log
         = (Return (85%Z, [of_string "improve formatting"]),
            log ++ [score_prompt text])).
Proof.
  split; [exact search_score_matches|]. split.
  - intros env text log lines.
    exists (fst (score_and_suggest_reply
                   (provider_reply env (score_prompt text)))),
           (snd (score_and_suggest_reply
                   (provider_reply env (score_prompt text)))).
    split; [|split; [|split]].
    + unfold score_and_suggest, bind. rewrite ask_gemini_run.
      unfold ret. now rewrite <- surjective_pairing.
    + intros pre ln post g Hl Hpre Hln.
      unfold score_and_suggest_reply; cbn [fst]. fold lines. rewrite Hl.
      now apply score_loop_first.
    + intros H. unfold score_and_suggest_reply; cbn [fst].
      now apply score_loop_none.
    + apply suggestions_reply.
  - intros env text log H.
    unfold score_and_suggest, bind. rewrite ask_gemini_run.
    unfold provider_reply. rewrite H. reflexivity.
Qed.

Lemma score_from_first_matching_line_witness :
  let env := world [] (inr (of_string "Resume review" ++ nl
                            ++ of_string "score: 70/100" ++ nl
                            ++ of_string "Score: 90/100")) in
  score_and_suggest env resume_text []
  = (Return (70%Z, []), [score_prompt resume_text]).
Proof.
  intros env.
  destruct (proj1 (proj2 score_from_first_matching_line) env resume_text [])
    as (score & suggestions & E & H1 & _ & H3).
  rewrite E.
  rewrite (H1 [of_string "Resume review"] (of_string "score: 70/100")
              [of_string "Score: 90/100"] (of_string "70")
              eq_refl
              ltac:(intros l [<-|[]]; reflexivity)
              eq_refl).
  rewrite H3. reflexivity.
Defined.

(** C4, as the code has it: [ask_gemini] never raises; when the
    provider raises it returns the error marker followed by the detail
    of the exception.  For a detail without a line boundary the marked
    text parses to no suggestion, no grammar error and no job role; it
    parses to the score 0 when the detail holds no match of the score
    pattern, and to the field "Not identified" when the detail contains
    neither "industry" nor "field". *)
Theorem ask_gemini_returns_marked_detail :
  (forall env prompt log,
      exists raw, ask_gemini env prompt log = (Return raw, log ++ [prompt]))
  /\ (forall env prompt log detail,
         generate_content env prompt = inl detail ->
         ask_gemini env prompt log
         = (Return (error_marker ++ detail), log ++ [prompt]))
  /\ (forall detail,
         forallb (fun c => negb (Py.islinebreak c)) detail = true ->
         let raw := error_marker ++ detail in
         snd (score_and_suggest_reply raw) = []
         /\ grammar_errors_reply raw = []
         /\ fst (recommend_jobs_reply raw) = []
         /\ (Re.search_score detail = None ->
             fst (score_and_suggest_reply raw) = 0%Z)
         /\ (names_field detail = false ->
             snd (recommend_jobs_reply raw) = Not_identified)).
Proof.
  split; [|split].
  - intros env prompt log. rewrite ask_gemini_run. eauto.
  - intros env prompt log detail H. rewrite ask_gemini_run.
    unfold provider_reply. now rewrite H.
  - intros detail H raw. subst raw.
    pose proof (marker_line detail H) as Hl.
    pose proof (marker_not_dashed detail) as Hd.
    rewrite suggestions_reply, recommend_jobs_reply_spec.
    unfold grammar_errors_reply, score_and_suggest_reply.
    rewrite Hl. cbn [filter map fst snd]. rewrite Hd.
    repeat split.
    + intros Hs. cbn [score_loop].
      now rewrite marker_search_score, Hs.
    + intros Hf. unfold field_line.
      now rewrite marker_names_field, Hf, andb_false_r.
Qed.

Lemma ask_gemini_returns_marked_detail_witness :
  ask_gemini (world [] (inl (of_string "429 quota exceeded")))
             (of_string "Rate this resume") []
  = (Return (error_marker ++ of_string "429 quota exceeded"),
     [of_string "Rate this resume"])
  /\ score_and_suggest_reply (error_marker ++ of_string "429 quota exceeded")
     = (0%Z, [])
  /\ grammar_errors_reply (error_marker ++ of_string "429 quota exceeded") = []
  /\ recommend_jobs_reply (error_marker ++ of_string "429 quota exceeded")
     = ([], Not_identified).
Proof.
  pose proof (proj2 (proj2 ask_gemini_returns_marked_detail)
                (of_string "429 quota exceeded") eq_refl)
    as (H1 & H2 & H3 & H4 & H5).
  split; [|split; [|split]].
  - exact (proj1 (proj2 ask_gemini_returns_marked_detail)
             (world [] (inl (of_string "429 quota exceeded")))
             (of_string "Rate this resume") []
             (of_string "429 quota exceeded") eq_refl).
  - rewrite (surjective_pairing (score_and_suggest_reply _)).
    now rewrite H1, (H4 eq_refl).
  - exact H2.
  - rewrite (surjective_pairing (recommend_jobs_reply _)).
    now rewrite H3, (H5 eq_refl).
Defined.

(** C4 as worded fails: the detail of the exception is part of the
    text that is parsed.  A detail that names a field becomes the field,
    and a detail of several lines can hold dash-prefixed lines. *)
Lemma marked_detail_parsed_as_reply :
  let env := world [] (inl (of_string "400 Unknown field in request")) in
  (exists raw,
      ask_gemini env (jobs_prompt []) [] = (Return raw, [jobs_prompt []])
      /\ snd (recommend_jobs_reply raw) <> Not_identified)
  /\ grammar_errors_reply
       (error_marker ++ of_string "503 overloaded" ++ nl
        ++ of_string "- retry later")
     <> [].
Proof.
  split.
  - eexists. split; [reflexivity|]. vm_compute. discriminate.
  - vm_compute. discriminate.
Qed.

(** ** The route *)

Lemma extract_keeps_log (env : Env) (path : str) (log : list str) :
  snd (extract_text_and_photo env path log) = log.
Proof.
  unfold extract_text_and_photo, after_last_dot, bind, lib, ret, raise.
  destruct (upto_dot (rev path)) as [r|]; [|reflexivity].
  destruct (str_eqb _ _).
  { destruct (pdfplumber_open env path); reflexivity. }
  destruct (str_eqb _ _).
  { destruct (docx_Document env path); reflexivity. }
  destruct (textract_process env path); reflexivity.
Qed.

Lemma extract_missing (env : Env) (path : str) (log : list str) :
  file_missing env path ->
  exists detail,
    extract_text_and_photo env path log = (Raise (Exception detail), log).
Proof.
  intros ([d1 H1] & [d2 H2] & [d3 H3]).
  unfold extract_text_and_photo, after_last_dot, bind, lib, ret, raise.
  destruct (upto_dot (rev path)) as [r|]; [|eauto].
  rewrite H1, H2, H3.
  destruct (str_eqb _ _); [eauto|].
  destruct (str_eqb _ _); eauto.
Qed.

Lemma analysis_run (env : Env) (c : N) (f : str) (log : list str) :
  analysis env (Some (c :: f)) log =
    match extract_text_and_photo env
            (os_path_join (UPLOAD_FOLDER env) (c :: f)) log with
    | (Raise e, log') => (Raise e, log')
    | (Return (text, has_photo), log') =>
        if (sum_values (detect_criteria env text has_photo) <? 3)%Z
        then (Raise (HTTPException {| code := 400;
                                      description := not_a_resume |}), log')
        else (Return (results_view env text has_photo),
              log' ++ [score_prompt text; grammar_prompt text;
                       jobs_prompt text])
    end.
Proof.
  unfold analysis. unfold bind at 1.
  destruct (extract_text_and_photo env _ log) as [[[text has_photo]|e] log'];
    [|reflexivity].
  destruct (sum_values _ <? 3)%Z; [reflexivity|].
  unfold try_except, bind, score_and_suggest, grammar_errors, recommend_jobs.
  unfold bind. rewrite !ask_gemini_run. unfold ret.
  destruct (score_and_suggest_reply _) as [score suggestions] eqn:E1.
  rewrite ask_gemini_run.
  rewrite ask_gemini_run.
  destruct (recommend_jobs_reply _) as [roles field] eqn:E3.
  unfold results_view. rewrite E1, E3. simpl fst; simpl snd.
  now rewrite <- !app_assoc.
Qed.

Lemma sum_values_count (criteria : list (string * bool)) :
  sum_values criteria = Z.of_nat (length (filter snd criteria)).
Proof.
  unfold sum_values.
  assert (H : forall acc,
             fold_left (fun acc (kv : string * bool) =>
                          acc + (if snd kv then 1 else 0))%Z criteria acc
             = (acc + Z.of_nat (length (filter snd criteria)))%Z).
  { induction criteria as [|[k b] l IH]; intros acc; simpl; [lia|].
    rewrite IH. destruct b; simpl length; lia. }
  now rewrite H.
Qed.

Lemma GET_analysis_nonempty (env : Env) (fname : str) :
  fname <> [] ->
  GET_analysis env (Some fname) =
    match extract_text_and_photo env
            (os_path_join (UPLOAD_FOLDER env) fname) [] with
    | (Raise (Exception d), _) => (Unhandled (Exception d), [])
    | (Raise (HTTPException h), _) =>
        if (code h =? 400)%N || (code h =? 502)%N
        then (Response (fst (handle_errors h)) (code h), [])
        else (DefaultPage (code h), [])
    | (Return (text, has_photo), _) =>
        if (sum_values (detect_criteria env text has_photo) <? 3)%Z
        then (Response (fst (handle_errors rejected)) 400, [])
        else (Response (results_view env text has_photo) 200,
              [score_prompt text; grammar_prompt text; jobs_prompt text])
    end.
Proof.
  destruct fname as [|c f]; [congruence|]. intros _.
  unfold GET_analysis. rewrite analysis_run.
  pose proof (extract_keeps_log env
                (os_path_join (UPLOAD_FOLDER env) (c :: f)) []) as Hlog.
  destruct (extract_text_and_photo env _ [])
    as [[[text has_photo]|[h|d]] log']; simpl in Hlog; subst log'.
  - destruct (sum_values _ <? 3)%Z; reflexivity.
  - destruct ((code h =? 400)%N || (code h =? 502)%N); reflexivity.
  - reflexivity.
Qed.

Lemma extract_raises_no_abort (env : Env) (path : str) (log log' : list str)
      (h : HTTPError) :
  extract_text_and_photo env path log <> (Raise (HTTPException h), log').
Proof.
  unfold extract_text_and_photo, after_last_dot, bind, lib, ret, raise.
  destruct (upto_dot (rev path)) as [r|]; [|discriminate].
  destruct (str_eqb _ _).
  { destruct (pdfplumber_open env path); discriminate. }
  destruct (str_eqb _ _).
  { destruct (docx_Document env path); discriminate. }
  destruct (textract_process env path); discriminate.
Qed.

(** Every answer to [GET /analysis] is of one of three kinds. *)
Lemma GET_analysis_cases (env : Env) (fname : option str) :
  (exists h, (h = missing_filename \/ h = rejected)
             /\ GET_analysis env fname
                = (Response (fst (handle_errors h)) 400, []))
  \/ (exists text has_photo,
         GET_analysis env fname
         = (Response (results_view env text has_photo) 200,
            [score_prompt text; grammar_prompt text; jobs_prompt text]))
  \/ (exists d, GET_analysis env fname = (Unhandled (Exception d), [])).
Proof.
  destruct fname as [[|c f]|].
  - left. exists missing_filename. split; [now left|reflexivity].
  - rewrite GET_analysis_nonempty by discriminate.
    destruct (extract_text_and_photo env _ [])
      as [[[text has_photo]|[h|d]] log'] eqn:E.
    + destruct (sum_values _ <? 3)%Z.
      * left. exists rejected. split; [now right|reflexivity].
      * right; left. eauto.
    + now apply extract_raises_no_abort in E.
    + right; right. eauto.
  - left. exists missing_filename. split; [now left|reflexivity].
Qed.

(** C5: the six criteria are counted, and the request goes on to the
    three provider calls exactly when at least three of them hold; with
    fewer the answer is the error view with status 400 and one message,
    and no prompt has been sent. *)
Theorem gate_of_three_criteria (env : Env) (fname text : str)
        (has_photo : bool) :
  fname <> [] ->
  extract_text_and_photo env (os_path_join (UPLOAD_FOLDER env) fname) []
  = (Return (text, has_photo), []) ->
  let criteria := detect_criteria env text has_photo in
  length criteria = 6%nat
  /\ sum_values criteria = Z.of_nat (length (filter snd criteria))
  /\ ((3 <= sum_values criteria)%Z ->
      GET_analysis env (Some fname)
      = (Response (results_view env text has_photo) 200,
         [score_prompt text; grammar_prompt text; jobs_prompt text]))
  /\ ((sum_values criteria < 3)%Z ->
      GET_analysis env (Some fname)
      = (Response (fst (handle_errors rejected)) 400, [])
      /\ kwarg "errors" (context (fst (handle_errors rejected)))
         = Some (VList [str_of_http rejected]))
  /\ (snd (GET_analysis env (Some fname)) <> []
      <-> (3 <= sum_values criteria)%Z).
Proof.
  intros Hf He criteria.
  pose proof (GET_analysis_nonempty env fname Hf) as H.
  rewrite He in H. fold criteria in H.
  split; [reflexivity|]. split; [apply sum_values_count|].
  destruct (sum_values criteria <? 3)%Z eqn:E.
  - apply Z.ltb_lt in E. repeat split; try lia.
    + exact H.
    + rewrite H. simpl. congruence.
  - apply Z.ltb_ge in E. repeat split; try lia.
    + intros _. exact H.
    + rewrite H. simpl. discriminate.
Qed.

Lemma gate_of_three_criteria_witness :
  GET_analysis (world resume_text (inr (of_string "Score: 80/100")))
               (Some (of_string "cv.doc"))
  = (Response
       (results_view (world resume_text (inr (of_string "Score: 80/100")))
                     (Re.sub_camel resume_text) false) 200,
     [score_prompt (Re.sub_camel resume_text);
      grammar_prompt (Re.sub_camel resume_text);
      jobs_prompt (Re.sub_camel resume_text)])
  /\ GET_analysis (world letter_text (inr (of_string "Score: 80/100")))
                  (Some (of_string "cv.doc"))
     = (Response (fst (handle_errors rejected)) 400, []).
Proof.
  split.
  - apply (gate_of_three_criteria
             (world resume_text (inr (of_string "Score: 80/100")))
             (of_string "cv.doc") (Re.sub_camel resume_text) false).
    + discriminate.
    + reflexivity.
    + vm_compute. discriminate.
  - apply (gate_of_three_criteria
             (world letter_text (inr (of_string "Score: 80/100")))
             (of_string "cv.doc") (Re.sub_camel letter_text) false).
    + discriminate.
    + reflexivity.
    + reflexivity.
Defined.

(** C6, as the code has it: the handler renders the results template,
    the one a successful analysis renders, with the score 0, no
    criteria, one error message, no suggestions and the status of the
    error.  It passes these four variables only: of the six variables
    of the successful view, [job_roles] and [job_field] are not passed.
    Every answer of the route with another status than 200 is such a
    view, with status 400 or 502. *)
Theorem error_view_of_results_template :
  (forall h,
      template (fst (handle_errors h)) = "results.html"%string
      /\ context (fst (handle_errors h))
         = [ ("score"%string, VInt 0); ("criteria"%string, VDict []);
             ("errors"%string, VList [str_of_http h]);
             ("suggestions"%string, VList []) ]
      /\ length [str_of_http h] = 1%nat
      /\ kwarg "job_roles" (context (fst (handle_errors h))) = None
      /\ kwarg "job_field" (context (fst (handle_errors h))) = None
      /\ snd (handle_errors h) = code h)
  /\ (forall env fname body status log,
         GET_analysis env fname = (Response body status, log) ->
         template body = "results.html"%string
         /\ (status = 200%N ->
             map fst (context body)
             = ["score"; "criteria"; "errors"; "suggestions"; "job_roles";
                "job_field"]%string)
         /\ (status <> 200%N ->
             (status = 400%N \/ status = 502%N)
             /\ map fst (context body)
                = ["score"; "criteria"; "errors"; "suggestions"]%string
             /\ exists h, code h = status
                          /\ body = fst (handle_errors h)
                          /\ kwarg "score" (context body) = Some (VInt 0)
                          /\ kwarg "criteria" (context body) = Some (VDict [])
                          /\ kwarg "errors" (context body)
                             = Some (VList [str_of_http h])
                          /\ kwarg "suggestions" (context body)
                             = Some (VList []))).
Proof.
  split.
  - intros h. repeat split.
  - intros env fname body status log H.
    destruct (GET_analysis_cases env fname)
      as [(h & Hh & E)|[(text & hp & E)|(d & E)]];
      rewrite E in H; [| |discriminate].
    + injection H as <- <- <-.
      split; [reflexivity|]. split; [discriminate|]. intros _.
      split; [now left|]. split; [reflexivity|]. exists h.
      destruct Hh as [-> | ->]; repeat split.
    + injection H as <- <- <-.
      split; [reflexivity|]. split; [reflexivity|]. congruence.
Qed.

Lemma error_view_of_results_template_witness :
  template (fst (handle_errors rejected)) = "results.html"%string
  /\ exists h,
      code h = 400%N
      /\ kwarg "errors" (context (fst (handle_errors rejected)))
         = Some (VList [str_of_http h]).
Proof.
  pose proof (proj2 error_view_of_results_template
                (world letter_text (inr (of_string "Score: 80/100")))
                (Some (of_string "cv.doc"))
                (fst (handle_errors rejected)) 400%N [] eq_refl)
    as (Ht & _ & He).
  split; [exact Ht|].
  destruct (He ltac:(discriminate))
    as (_ & _ & h & Hc & _ & _ & _ & Herr & _).
  exists h. split; assumption.
Defined.

(** C6 as worded fails: the error view has not the shape of the
    successful view; it lacks the variables [job_roles] and
    [job_field] that the successful view passes. *)
Lemma error_view_lacks_job_variables :
  exists ok err,
    GET_analysis (world resume_text (inr (of_string "Score: 80/100")))
                 (Some (of_string "cv.doc"))
    = (Response ok 200,
       [score_prompt (Re.sub_camel resume_text);
        grammar_prompt (Re.sub_camel resume_text);
        jobs_prompt (Re.sub_camel resume_text)])
    /\ GET_analysis (world letter_text (inr (of_string "Score: 80/100")))
                    (Some (of_string "cv.doc"))
       = (Response err 400, [])
    /\ ~ same_shape err ok
    /\ kwarg "job_roles" (context ok) <> None
    /\ kwarg "job_roles" (context err) = None
    /\ kwarg "job_field" (context ok) <> None
    /\ kwarg "job_field" (context err) = None.
Proof.
  eexists. eexists.
  split; [reflexivity|]. split; [reflexivity|].
  split; [intros [_ H]; discriminate H|].
  split; [discriminate|]. split; [reflexivity|].
  split; [discriminate|reflexivity].
Qed.

Lemma results_view_kwargs (env : Env) (text : str) (has_photo : bool) :
  let view := context (results_view env text has_photo) in
  kwarg "suggestions" view
  = Some (VList (snd (score_and_suggest_reply
                        (provider_reply env (score_prompt text)))))
  /\ kwarg "job_roles" view
     = Some (VList (fst (recommend_jobs_reply
                           (provider_reply env (jobs_prompt text)))))
  /\ kwarg "errors" view
     = Some (VList (firstn 10 (grammar_errors_reply
                                 (provider_reply env (grammar_prompt text))))).
Proof. repeat split. Qed.

(** C8: whatever the reply, at most five suggestions and at most five
    job roles are returned, and the route renders at most ten grammar
    errors; eight dash-prefixed lines give five suggestions and five
    roles. *)
Theorem lists_are_capped :
  (forall raw,
      (length (snd (score_and_suggest_reply raw)) <= 5)%nat
      /\ (length (fst (recommend_jobs_reply raw)) <= 5)%nat)
  /\ (forall env fname body status log,
         GET_analysis env fname = (Response body status, log) ->
         (forall xs, kwarg "suggestions" (context body) = Some (VList xs) ->
                     (length xs <= 5)%nat)
         /\ (forall xs, kwarg "job_roles" (context body) = Some (VList xs) ->
                        (length xs <= 5)%nat)
         /\ (forall xs, kwarg "errors" (context body) = Some (VList xs) ->
                        (length xs <= 10)%nat))
  /\ (let raw := Py.join nl (map (fun c => of_string "- point " ++ [c])
                                 [97; 98; 99; 100; 101; 102; 103; 104]%N) in
      length (filter dashed (Py.splitlines raw)) = 8%nat
      /\ length (snd (score_and_suggest_reply raw)) = 5%nat
      /\ length (fst (recommend_jobs_reply raw)) = 5%nat
      /\ length (firstn 10 (grammar_errors_reply raw)) = 8%nat).
Proof.
  split; [|split].
  - intros raw. rewrite suggestions_reply, recommend_jobs_reply_spec.
    split; apply firstn_le_length.
  - intros env fname body status log H.
    destruct (GET_analysis_cases env fname)
      as [(h & Hh & E)|[(text & hp & E)|(d & E)]];
      rewrite E in H; [| |discriminate]; injection H as <- <- <-.
    + repeat split; intros xs [= <-]; simpl; lia.
    + pose proof (results_view_kwargs env text hp) as (K1 & K2 & K3).
      repeat split; intros xs Hx.
      * rewrite K1 in Hx.
        assert (xs = snd (score_and_suggest_reply
                            (provider_reply env (score_prompt text))))
          as -> by congruence.
        rewrite suggestions_reply. apply firstn_le_length.
      * rewrite K2 in Hx.
        assert (xs = fst (recommend_jobs_reply
                            (provider_reply env (jobs_prompt text))))
          as -> by congruence.
        rewrite recommend_jobs_reply_spec. apply firstn_le_length.
      * rewrite K3 in Hx.
        assert (xs = firstn 10 (grammar_errors_reply
                                  (provider_reply env (grammar_prompt text))))
          as -> by congruence.
        apply firstn_le_length.
  - repeat split.
Qed.

Lemma lists_are_capped_witness :
  (length [str_of_http rejected] <= 10)%nat.
Proof.
  exact (proj2 (proj2 (proj1 (proj2 lists_are_capped)
           (world letter_text (inr (of_string "Score: 80/100")))
           (Some (of_string "cv.doc")) (fst (handle_errors rejected))
           400%N [] eq_refl))
         [str_of_http rejected] eq_refl).
Defined.

(** C9, as the code has it: when the file name is not empty and no
    file is at the path that [os.path.join] makes of the upload folder
    and the file name (the file name itself when it begins with a
    slash), the exception of the extraction leaves the route as it is:
    no handler of the application takes it, the answer is neither the
    view of an abort with 400 or 502 nor the results view, and no
    prompt has been sent. *)
Theorem missing_file_is_unhandled (env : Env) (fname : str) :
  fname <> [] ->
  file_missing env (os_path_join (UPLOAD_FOLDER env) fname) ->
  exists detail,
    extract_text_and_photo env (os_path_join (UPLOAD_FOLDER env) fname) []
    = (Raise (Exception detail), [])
    /\ analysis env (Some fname) [] = (Raise (Exception detail), [])
    /\ GET_analysis env (Some fname) = (Unhandled (Exception detail), [])
    /\ forall body status,
        fst (GET_analysis env (Some fname)) <> Response body status.
Proof.
  intros Hf Hm.
  destruct (extract_missing env _ [] Hm) as [detail E].
  exists detail. split; [exact E|].
  pose proof (GET_analysis_nonempty env fname Hf) as H.
  rewrite E in H. repeat split.
  - destruct fname as [|c f]; [congruence|].
    now rewrite analysis_run, E.
  - exact H.
  - intros body status. rewrite H. discriminate.
Qed.

Lemma missing_file_is_unhandled_witness :
  exists detail,
    GET_analysis (world resume_text (inr (of_string "Score: 80/100")))
                 (Some (of_string "other.pdf"))
    = (Unhandled (Exception detail), []).
Proof.
  destruct (missing_file_is_unhandled
              (world resume_text (inr (of_string "Score: 80/100")))
              (of_string "other.pdf"))
    as (detail & _ & _ & H & _).
  - discriminate.
  - repeat split; eexists; reflexivity.
  - exists detail. exact H.
Defined.

(** C9 as worded fails: the upload folder below holds no file, the
    file name is not empty, and yet the request is answered with the
    results view: the file name is an absolute path, which
    [os.path.join] keeps as it is. *)
Lemma absolute_name_outside_uploads_is_analysed :
  let env := world_with (of_string "/srv/uploads") (of_string "/home/ann/cv.doc")
                        resume_text (inr (of_string "Score: 80/100")) in
  uploads_hold_no_file env
  /\ of_string "/home/ann/cv.doc" <> []
  /\ GET_analysis env (Some (of_string "/home/ann/cv.doc"))
     = (Response (results_view env (Re.sub_camel resume_text) false) 200,
        [score_prompt (Re.sub_camel resume_text);
         grammar_prompt (Re.sub_camel resume_text);
         jobs_prompt (Re.sub_camel resume_text)]).
Proof.
  intros env. split; [|split; [discriminate|reflexivity]].
  intros name. split; [|split]; eexists; reflexivity.
Qed.

(** * Further properties of the code *)

(** ** File names and extensions *)

Lemma contains_dot (s : str) :
  Py.contains (of_string ".") s = true <-> In 46%N s.
Proof.
  change (of_string ".") with [46%N].
  induction s as [|c s IH]; cbn [Py.contains Py.startswith].
  - split; [discriminate|intros []].
  - rewrite andb_true_r, orb_true_iff, IH, N.eqb_eq. simpl.
    split; intros [H|H]; auto.
Qed.

Lemma upto_dot_app (r t : str) :
  ~ In 46%N r -> upto_dot (r ++ 46%N :: t) = Some r.
Proof.
  induction r as [|c r IH]; simpl; intros H.
  - reflexivity.
  - destruct (c =? 46)%N eqn:E.
    + apply N.eqb_eq in E. exfalso; apply H; now left.
    + rewrite IH; [reflexivity|]. intros Hr; apply H; now right.
Qed.

Lemma upto_dot_some (s : str) :
  In 46%N s ->
  exists r t, upto_dot s = Some r /\ s = r ++ 46%N :: t /\ ~ In 46%N r.
Proof.
  induction s as [|c s IH]; simpl; [intros []|].
  destruct (c =? 46)%N eqn:E.
  - apply N.eqb_eq in E; subst c. intros _.
    exists [], s. repeat split. intros [].
  - apply N.eqb_neq in E. intros [H|H]; [congruence|].
    destruct (IH H) as (r & t & -> & -> & Hr).
    exists (c :: r), t. repeat split.
    intros [H1|H1]; [congruence|contradiction].
Qed.

Lemma upto_dot_none (s : str) : ~ In 46%N s -> upto_dot s = None.
Proof.
  induction s as [|c s IH]; simpl; [reflexivity|]. intros H.
  destruct (c =? 46)%N eqn:E.
  - apply N.eqb_eq in E. exfalso; apply H; now left.
  - rewrite IH; [reflexivity|]. intros Hs; apply H; now right.
Qed.

(** The extension that [rsplit('.', 1)[1]] finds. *)
Lemma after_last_dot_ext (stem ext : str) (log : list str) :
  ~ In 46%N ext ->
  after_last_dot (stem ++ 46%N :: ext) log = (Return ext, log).
Proof.
  intros H. unfold after_last_dot.
  assert (E : rev (stem ++ 46%N :: ext) = rev ext ++ 46%N :: rev stem).
  { rewrite rev_app_distr. simpl. now rewrite <- app_assoc. }
  rewrite E, upto_dot_app by (now rewrite <- in_rev).
  now rewrite rev_involutive.
Qed.

Lemma dotted_name_split (name : str) :
  In 46%N name ->
  exists stem ext, name = stem ++ 46%N :: ext /\ ~ In 46%N ext.
Proof.
  intros H. apply in_rev in H.
  destruct (upto_dot_some _ H) as (r & t & _ & E & Hr).
  exists (rev t), (rev r). split.
  - rewrite <- (rev_involutive name), E, rev_app_distr. simpl.
    now rewrite <- app_assoc.
  - now rewrite <- in_rev.
Qed.

Lemma last_extension_unique (stem ext stem' ext' : str) :
  stem ++ 46%N :: ext = stem' ++ 46%N :: ext' ->
  ~ In 46%N ext -> ~ In 46%N ext' -> ext = ext'.
Proof.
  intros E H H'.
  pose proof (after_last_dot_ext stem ext [] H) as A.
  pose proof (after_last_dot_ext stem' ext' [] H') as A'.
  rewrite E in A. congruence.
Qed.

Lemma str_eqb_eq (a b : str) : str_eqb a b = true <-> a = b.
Proof.
  unfold str_eqb. destruct (list_eq_dec N.eq_dec a b); split; congruence.
Qed.

Lemma in_allowed (e : str) :
  existsb (str_eqb e) ALLOWED_EXTENSIONS = true <-> In e ALLOWED_EXTENSIONS.
Proof.
  rewrite existsb_exists. split.
  - intros (x & Hx & E). apply str_eqb_eq in E. now subst.
  - intros H. exists e. split; [exact H|now apply str_eqb_eq].
Qed.

Lemma allowed_file_never_raises_aux (name : str) (log : list str) :
  exists b,
    allowed_file name log = (Return b, log)
    /\ (b = true <-> has_allowed_extension name).
Proof.
  unfold allowed_file.
  destruct (Py.contains (of_string ".") name) eqn:Hc.
  - apply contains_dot in Hc.
    destruct (dotted_name_split name Hc) as (stem & ext & -> & Hext).
    exists (existsb (str_eqb (Py.lower ext)) ALLOWED_EXTENSIONS).
    unfold bind. rewrite after_last_dot_ext by exact Hext.
    split; [reflexivity|]. rewrite in_allowed. split.
    + intros H. exists stem, ext. auto.
    + intros (stem' & ext' & E & H' & Hin).
      now rewrite (last_extension_unique _ _ _ _ E Hext H').
  - exists false. split; [reflexivity|].
    split; [discriminate|].
    intros (stem & ext & -> & _ & _). exfalso.
    assert (H : In 46%N (stem ++ 46%N :: ext))
      by (apply in_or_app; right; now left).
    apply contains_dot in H. congruence.
Qed.

(** X1: [allowed_file] never raises, whatever the file name: the test
    for a dot guards the indexing.  It answers true exactly for the
    names whose part after the last dot is "pdf", "doc" or "docx" in any
    letter case. *)
Theorem allowed_file_never_raises (name : str) (log : list str) :
  exists b,
    allowed_file name log = (Return b, log)
    /\ (b = true <-> has_allowed_extension name).
Proof. exact (allowed_file_never_raises_aux name log). Qed.

Lemma allowed_file_run (name : str) (log : list str) :
  (has_allowed_extension name /\ allowed_file name log = (Return true, log))
  \/ (~ has_allowed_extension name
      /\ allowed_file name log = (Return false, log)).
Proof.
  destruct (allowed_file_never_raises_aux name log) as (b & E & H).
  destruct b.
  - left. split; [now apply H|exact E].
  - right. split; [|exact E]. intros Hn. apply H in Hn. discriminate.
Qed.

(** ** The upload route *)


Lemma upload_run (env : Env) (wz : Werkzeug) (f : FileStorage)
      (log : list str) :
  upload env wz (Some f) log =
    match filename f with
    | [] => (Raise (HTTPException no_file_selected), log)
    | _ :: _ =>
        match fst (allowed_file (filename f) log) with
        | Return true =>
            let fname := secure_filename wz (filename f) in
            let path := os_path_join (UPLOAD_FOLDER env) fname in
            match save wz path (stream f) with
            | inr _ => (Return {| stored_path := path;
                                  stored_bytes := stream f;
                                  redirect_filename := fname |}, log)
            | inl d => (Raise (Exception d), log)
            end
        | _ => (Raise (HTTPException invalid_file_type), log)
        end
    end.
Proof.
  unfold upload. destruct (filename f) as [|c name] eqn:En; [reflexivity|].
  cbn [Py.truthy negb]. unfold bind at 1.
  destruct (allowed_file_run (c :: name) log) as [[_ E]|[_ E]];
    rewrite E; cbn [fst negb]; [|reflexivity].
  unfold bind, lib.
  destruct (save wz _ (stream f)) as [d|[]]; reflexivity.
Qed.




(** X3: when [/upload] returns, the name had an allowed extension, no
    prompt was sent, the bytes written are the posted ones, and
    [/analysis] asked for the file name of the redirect extracts from
    the path that was written: its answer is the one the extraction of
    that path leads to. *)
Theorem upload_then_analysis (env : Env) (wz : Werkzeug) (f : FileStorage)
        (log log' : list str) (s : stored) :
  upload env wz (Some f) log = (Return s, log') ->
  has_allowed_extension (filename f)
  /\ log' = log
  /\ stored_bytes s = stream f
  /\ redirect_filename s = secure_filename wz (filename f)
  /\ (redirect_filename s <> [] ->
      GET_analysis env (Some (redirect_filename s)) =
        match extract_text_and_photo env (stored_path s) [] with
        | (Raise (Exception d), _) => (Unhandled (Exception d), [])
        | (Raise (HTTPException h), _) =>
            if (code h =? 400)%N || (code h =? 502)%N
            then (Response (fst (handle_errors h)) (code h), [])
            else (DefaultPage (code h), [])
        | (Return (text, has_photo), _) =>
            if (sum_values (detect_criteria env text has_photo) <? 3)%Z
            then (Response (fst (handle_errors rejected)) 400, [])
            else (Response (results_view env text has_photo) 200,
                  [score_prompt text; grammar_prompt text; jobs_prompt text])
        end).
Proof.
  rewrite upload_run.
  destruct (filename f) as [|c name] eqn:En; [discriminate|].
  destruct (allowed_file_run (c :: name) log) as [[Ha E]|[_ E]];
    rewrite E; cbn [fst]; [|discriminate].
  cbv zeta.
  destruct (save wz _ (stream f)) as [d|u]; [discriminate|].
  intros [= <- <-]. cbn [stored_bytes redirect_filename stored_path].
  repeat split; auto.
  intros Hne. now apply GET_analysis_nonempty.
Qed.

Lemma upload_then_analysis_witness :
  GET_analysis (world resume_text (inr (of_string "Score: 80/100")))
               (Some (of_string "cv.doc"))
  = (Response
       (results_view (world resume_text (inr (of_string "Score: 80/100")))
                     (Re.sub_camel resume_text) false) 200,
     [score_prompt (Re.sub_camel resume_text);
      grammar_prompt (Re.sub_camel resume_text);
      jobs_prompt (Re.sub_camel resume_text)]).
Proof.
  destruct (upload_then_analysis
              (world resume_text (inr (of_string "Score: 80/100"))) disk
              {| filename := of_string "cv.doc"; stream := [208; 207]%N |}
              [] []
              {| stored_path := of_string "/srv/app/backend/uploads/cv.doc";
                 stored_bytes := [208; 207]%N;
                 redirect_filename := of_string "cv.doc" |} eq_refl)
    as (_ & _ & _ & _ & H).
  exact (H ltac:(discriminate)).
Defined.

(** ** The analysis route, further *)

(** X4: [/analysis] never answers with status 502: every failure of
    the provider is turned into text inside [ask_gemini], so the
    [except] branch of the route is never taken.  An answer is the
    results view with 200, the error view with 400, or an exception
    that is not an abort. *)
Theorem analysis_never_answers_502 (env : Env) (fname : option str) :
  match fst (GET_analysis env fname) with
  | Response _ status => status = 200%N \/ status = 400%N
  | DefaultPage _ => False
  | Unhandled e => exists d, e = Exception d
  end
  /\ forall log h log',
      analysis env fname log = (Raise (HTTPException h), log') ->
      code h = 400%N /\ log' = log.
Proof.
  split.
  - destruct (GET_analysis_cases env fname)
      as [(h & _ & E)|[(text & hp & E)|(d & E)]]; rewrite E; simpl; eauto.
  - intros log h log'. destruct fname as [[|c f]|].
    + intros [= <- <-]. auto.
    + rewrite analysis_run.
      pose proof (extract_keeps_log env
                    (os_path_join (UPLOAD_FOLDER env) (c :: f)) log) as Hl.
      destruct (extract_text_and_photo env _ log)
        as [[[text hp]|e] l] eqn:E; simpl in Hl; subst l.
      * destruct (sum_values _ <? 3)%Z; [|discriminate].
        intros [= <- <-]. auto.
      * intros [= -> _]. now apply extract_raises_no_abort in E.
    + intros [= <- <-]. auto.
Qed.

(** X5: a document from which no text is extracted is rejected with
    400, with or without a photo and whatever the table of [\w]: at
    most one criterion holds. *)
Theorem empty_text_is_rejected (env : Env) (fname : str) (has_photo : bool) :
  fname <> [] ->
  extract_text_and_photo env (os_path_join (UPLOAD_FOLDER env) fname) []
  = (Return ([], has_photo), []) ->
  (sum_values (detect_criteria env [] has_photo) <= 1)%Z
  /\ GET_analysis env (Some fname)
     = (Response (fst (handle_errors rejected)) 400, []).
Proof.
  intros Hf He.
  assert (H : (sum_values (detect_criteria env [] has_photo) <= 1)%Z)
    by (destruct has_photo; vm_compute; discriminate).
  split; [exact H|].
  rewrite (GET_analysis_nonempty env fname Hf), He.
  destruct (sum_values _ <? 3)%Z eqn:E; [reflexivity|].
  apply Z.ltb_ge in E. lia.
Qed.

Lemma empty_text_is_rejected_witness :
  GET_analysis (world [] (inr (of_string "Score: 80/100")))
               (Some (of_string "cv.doc"))
  = (Response (fst (handle_errors rejected)) 400, []).
Proof.
  exact (proj2 (empty_text_is_rejected
                  (world [] (inr (of_string "Score: 80/100")))
                  (of_string "cv.doc") false ltac:(discriminate) eq_refl)).
Defined.

(** X6: a file name that begins with a slash is opened as it stands:
    [os.path.join] drops the upload folder, so the route analyses any
    absolute path that the libraries can read. *)
Theorem absolute_filename_leaves_upload_folder (env : Env) (fname text : str)
        (has_photo : bool) :
  Py.startswith (of_string "/") fname = true ->
  extract_text_and_photo env fname [] = (Return (text, has_photo), []) ->
  (3 <= sum_values (detect_criteria env text has_photo))%Z ->
  os_path_join (UPLOAD_FOLDER env) fname = fname
  /\ GET_analysis env (Some fname)
     = (Response (results_view env text has_photo) 200,
        [score_prompt text; grammar_prompt text; jobs_prompt text]).
Proof.
  intros Hs He Hc.
  assert (Hj : os_path_join (UPLOAD_FOLDER env) fname = fname)
    by (unfold os_path_join; now rewrite Hs).
  split; [exact Hj|].
  assert (Hf : fname <> []) by (intros ->; discriminate).
  rewrite (GET_analysis_nonempty env fname Hf), Hj, He.
  destruct (sum_values _ <? 3)%Z eqn:E; [|reflexivity].
  apply Z.ltb_lt in E. lia.
Qed.

(** X7: when the joined path holds no dot, [rsplit('.', 1)[1]] raises
    the IndexError "list index out of range" before any library is
    asked; the route does not catch it. *)
Theorem dotless_path_is_unhandled (env : Env) (fname : str) :
  fname <> [] ->
  ~ In 46%N (os_path_join (UPLOAD_FOLDER env) fname) ->
  GET_analysis env (Some fname)
  = (Unhandled (Exception (of_string "list index out of range")), []).
Proof.
  intros Hf Hd. rewrite (GET_analysis_nonempty env fname Hf).
  unfold extract_text_and_photo, after_last_dot, bind.
  rewrite upto_dot_none; [reflexivity|]. now rewrite <- in_rev.
Qed.

Lemma absolute_filename_leaves_upload_folder_witness :
  let env := world_with (of_string "/srv/uploads") (of_string "/home/ann/cv.doc")
                        resume_text (inr (of_string "Score: 80/100")) in
  GET_analysis env (Some (of_string "/home/ann/cv.doc"))
  = (Response (results_view env (Re.sub_camel resume_text) false) 200,
     [score_prompt (Re.sub_camel resume_text);
      grammar_prompt (Re.sub_camel resume_text);
      jobs_prompt (Re.sub_camel resume_text)]).
Proof.
  intros env.
  apply (absolute_filename_leaves_upload_folder env
           (of_string "/home/ann/cv.doc") (Re.sub_camel resume_text) false).
  - reflexivity.
  - reflexivity.
  - vm_compute. discriminate.
Defined.

Lemma dotless_path_is_unhandled_witness :
  GET_analysis
    (world_with (of_string "/srv/uploads") (of_string "/srv/uploads/cv")
                resume_text (inr (of_string "Score: 80/100")))
    (Some (of_string "cv"))
  = (Unhandled (Exception (of_string "list index out of range")), []).
Proof.
  apply dotless_path_is_unhandled.
  - discriminate.
  - intros H. repeat (destruct H as [H|H]; [discriminate|]). destruct H.
Defined.

(** ** A provider that is down *)

Lemma marked_reply_parses (detail : str) :
  quiet detail ->
  score_and_suggest_reply (error_marker ++ detail) = (0%Z, [])
  /\ grammar_errors_reply (error_marker ++ detail) = []
  /\ recommend_jobs_reply (error_marker ++ detail) = ([], Not_identified).
Proof.
  intros (Hl & Hs & Hf).
  pose proof (marker_line detail Hl) as El.
  pose proof (marker_not_dashed detail) as Ed.
  split; [|split].
  - rewrite (surjective_pairing (score_and_suggest_reply _)).
    rewrite suggestions_reply. unfold score_and_suggest_reply.
    rewrite El. cbn [filter map fst score_loop]. rewrite Ed.
    now rewrite marker_search_score, Hs.
  - unfold grammar_errors_reply. rewrite El. cbn [filter]. now rewrite Ed.
  - rewrite recommend_jobs_reply_spec, El. cbn [filter]. rewrite Ed.
    unfold field_line. now rewrite marker_names_field, Hf, andb_false_r.
Qed.

(** X8: when the provider raises on all three prompts of a document
    that passes the gate, the route still answers 200: the score is 0,
    the lists are empty and the field is "Not identified", for details
    of one line that hold neither a score nor a field word.  The outage
    shows as a poor result, not as an error. *)
Theorem provider_outage_answers_200 (env : Env) (fname text : str)
        (has_photo : bool) (d1 d2 d3 : str) :
  fname <> [] ->
  extract_text_and_photo env (os_path_join (UPLOAD_FOLDER env) fname) []
  = (Return (text, has_photo), []) ->
  (3 <= sum_values (detect_criteria env text has_photo))%Z ->
  generate_content env (score_prompt text) = inl d1 ->
  generate_content env (grammar_prompt text) = inl d2 ->
  generate_content env (jobs_prompt text) = inl d3 ->
  quiet d1 -> quiet d2 -> quiet d3 ->
  GET_analysis env (Some fname)
  = (Response
       (render_template "results.html"
          [ ("score"%string, VInt 0);
            ("criteria"%string, VDict (detect_criteria env text has_photo));
            ("errors"%string, VList []);
            ("suggestions"%string, VList []);
            ("job_roles"%string, VList []);
            ("job_field"%string, VStr Not_identified) ]) 200,
     [score_prompt text; grammar_prompt text; jobs_prompt text]).
Proof.
  intros Hf He Hc G1 G2 G3 Q1 Q2 Q3.
  rewrite (GET_analysis_nonempty env fname Hf), He.
  destruct (sum_values _ <? 3)%Z eqn:E; [apply Z.ltb_lt in E; lia|].
  unfold results_view, provider_reply. rewrite G1, G2, G3.
  destruct (marked_reply_parses d1 Q1) as (-> & _ & _).
  destruct (marked_reply_parses d2 Q2) as (_ & -> & _).
  destruct (marked_reply_parses d3 Q3) as (_ & _ & ->).
  reflexivity.
Qed.

Lemma provider_outage_answers_200_witness :
  let env := world resume_text (inl (of_string "503 unavailable")) in
  GET_analysis env (Some (of_string "cv.doc"))
  = (Response
       (render_template "results.html"
          [ ("score"%string, VInt 0);
            ("criteria"%string,
              VDict (detect_criteria env (Re.sub_camel resume_text) false));
            ("errors"%string, VList []);
            ("suggestions"%string, VList []);
            ("job_roles"%string, VList []);
            ("job_field"%string, VStr Not_identified) ]) 200,
     [score_prompt (Re.sub_camel resume_text);
      grammar_prompt (Re.sub_camel resume_text);
      jobs_prompt (Re.sub_camel resume_text)]).
Proof.
  intros env.
  apply (provider_outage_answers_200 env (of_string "cv.doc")
           (Re.sub_camel resume_text) false
           (of_string "503 unavailable") (of_string "503 unavailable")
           (of_string "503 unavailable"));
    try reflexivity; try discriminate; repeat split.
Defined.

(** ** The size of the prompts *)

Lemma firstn_of_long {A} (n : nat) (l tail : list A) :
  (n <= length l)%nat -> firstn n (l ++ tail) = firstn n l.
Proof.
  intros H. rewrite firstn_app.
  replace (n - length l)%nat with 0%nat by lia.
  simpl. apply app_nil_r.
Qed.

(** X9: only the first 3000 code points of the extracted text reach
    the provider: what follows them changes none of the three prompts,
    and each prompt is at most 3000 code points longer than its
    instruction. *)
Theorem prompts_hold_3000_code_points (text tail : str) :
  (3000 <= length text)%nat ->
  score_prompt (text ++ tail) = score_prompt text
  /\ grammar_prompt (text ++ tail) = grammar_prompt text
  /\ jobs_prompt (text ++ tail) = jobs_prompt text
  /\ (length (score_prompt (text ++ tail))
      = length (score_prompt []) + 3000)%nat
  /\ (length (grammar_prompt (text ++ tail))
      = length (grammar_prompt []) + 3000)%nat
  /\ (length (jobs_prompt (text ++ tail))
      = length (jobs_prompt []) + 3000)%nat.
Proof.
  intros H.
  assert (E : firstn 3000 (text ++ tail) = firstn 3000 text)
    by now apply firstn_of_long.
  assert (L : length (firstn 3000 text) = 3000%nat)
    by (apply firstn_length_le; exact H).
  unfold score_prompt, grammar_prompt, jobs_prompt.
  rewrite E. repeat split;
    repeat rewrite ?length_app, ?L; cbn [firstn length app nl]; lia.
Qed.

Lemma prompts_hold_3000_code_points_witness :
  score_prompt (repeat 97%N 3000 ++ of_string "beyond")
  = score_prompt (repeat 97%N 3000).
Proof.
  apply (prompts_hold_3000_code_points (repeat 97%N 3000) (of_string "beyond")).
  rewrite repeat_length. apply le_n.
Defined.

(** ** Lines and their ends *)

Lemma splitlines_from_one_line (n : nat) :
  forall s cur ln,
    (length s <= n)%nat -> one_line cur ->
    In ln (Py.splitlines_from cur s) -> one_line ln.
Proof.
  induction n as [|n IH]; intros s cur ln Hn Hcur.
  - destruct s; [|simpl in Hn; lia]. simpl.
    destruct cur; [intros []|]. intros [<-|[]]. exact Hcur.
  - destruct s as [|c t]; simpl.
    + destruct cur; [intros []|]. intros [<-|[]]. exact Hcur.
    + simpl in Hn. destruct (Py.islinebreak c) eqn:Ec.
      * intros [<-|H]; [exact Hcur|].
        assert (Hnil : one_line []) by (intros x []).
        destruct t as [|d t'].
        -- destruct H.
        -- simpl in Hn.
           destruct ((c =? 13)%N && (d =? 10)%N);
             (eapply IH; [|exact Hnil|exact H]); simpl; lia.
      * apply IH; [lia|].
        intros x Hx. apply in_app_or in Hx as [Hx|[<-|[]]]; auto.
Qed.

Lemma splitlines_one_line (raw ln : str) :
  In ln (Py.splitlines raw) -> one_line ln.
Proof.
  apply (splitlines_from_one_line (length raw)); [lia|]. intros c [].
Qed.

Lemma strip_by_In (p : N -> bool) (s : str) (c : N) :
  In c (Py.strip_by p s) -> In c s.
Proof.
  unfold Py.strip_by. intros H.
  apply rstrip_by_In in H. now apply lstrip_by_In in H.
Qed.

Lemma item_In (ln : str) (c : N) : In c (item ln) -> In c ln.
Proof.
  unfold item, Py.strip, Py.strip_chars. intros H.
  apply strip_by_In in H. now apply strip_by_In in H.
Qed.

Lemma last_in_cons {A} (l : list A) (x : A) : In (last l x) (x :: l).
Proof.
  revert x; induction l as [|y l IH]; intros x; [now left|].
  rewrite last_cons. right. apply IH.
Qed.

Lemma last_or_default {A} (l : list A) (d : A) :
  last l d = d \/ In (last l d) l.
Proof.
  destruct l as [|x l]; [now left|].
  right. rewrite last_cons. apply last_in_cons.
Qed.

Lemma firstn_In {A} (n : nat) (l : list A) (x : A) :
  In x (firstn n l) -> In x l.
Proof.
  intros H. rewrite <- (firstn_skipn n l). apply in_or_app. now left.
Qed.

(** X10: every suggestion, grammar error and job role, and the field,
    is a text of one line: it holds no line boundary of [splitlines]
    (line feed, carriage return, vertical tab, form feed, the
    separators U+001C to U+001E, U+0085, U+2028, U+2029). *)
Theorem parsed_texts_are_one_line (raw : str) :
  (forall x, In x (snd (score_and_suggest_reply raw)) -> one_line x)
  /\ (forall x, In x (grammar_errors_reply raw) -> one_line x)
  /\ (forall x, In x (fst (recommend_jobs_reply raw)) -> one_line x)
  /\ one_line (snd (recommend_jobs_reply raw)).
Proof.
  assert (Hitems : forall x,
             In x (map item (filter dashed (Py.splitlines raw))) ->
             one_line x).
  { intros x Hx. apply in_map_iff in Hx as (ln & <- & Hln).
    apply filter_In in Hln as [Hln _].
    intros c Hc. apply item_In in Hc.
    exact (splitlines_one_line raw ln Hln c Hc). }
  rewrite suggestions_reply, recommend_jobs_reply_spec. cbn [fst snd].
  repeat split.
  - intros x Hx. apply Hitems. eapply firstn_In; eauto.
  - exact Hitems.
  - intros x Hx. apply Hitems. eapply firstn_In; eauto.
  - destruct (last_or_default
                (map Py.strip (filter field_line (Py.splitlines raw)))
                Not_identified) as [-> | H].
    + intros c Hc.
      repeat (destruct Hc as [<-|Hc]; [reflexivity|]). destruct Hc.
    + apply in_map_iff in H as (ln & <- & Hln).
      apply filter_In in Hln as [Hln _].
      intros c Hc. apply strip_by_In in Hc.
      exact (splitlines_one_line raw ln Hln c Hc).
Qed.

Lemma strip_by_trims (p : N -> bool) (s : str) :
  match Py.strip_by p s with [] => True | c :: _ => p c = false end
  /\ match rev (Py.strip_by p s) with [] => True | c :: _ => p c = false end.
Proof.
  unfold Py.strip_by.
  destruct (Py.lstrip_by p s) as [|c a] eqn:Ea.
  - split; exact I.
  - pose proof (lstrip_by_head p s c a Ea) as Hc.
    rewrite rstrip_by_cons by exact Hc. split; [exact Hc|].
    rewrite <- rstrip_by_cons by exact Hc.
    unfold Py.rstrip_by. rewrite rev_involutive.
    destruct (Py.lstrip_by p (rev (c :: a))) as [|d b] eqn:Eb; [exact I|].
    exact (lstrip_by_head p _ d b Eb).
Qed.

Lemma item_trimmed (ln : str) : trimmed (item ln).
Proof. unfold item, Py.strip. apply strip_by_trims. Qed.

(** X11: every suggestion, grammar error and job role, and the field,
    comes without white space at either end. *)
Theorem parsed_texts_are_trimmed (raw : str) :
  (forall x, In x (snd (score_and_suggest_reply raw)) -> trimmed x)
  /\ (forall x, In x (grammar_errors_reply raw) -> trimmed x)
  /\ (forall x, In x (fst (recommend_jobs_reply raw)) -> trimmed x)
  /\ trimmed (snd (recommend_jobs_reply raw)).
Proof.
  assert (Hitems : forall x,
             In x (map item (filter dashed (Py.splitlines raw))) ->
             trimmed x).
  { intros x Hx. apply in_map_iff in Hx as (ln & <- & _).
    apply item_trimmed. }
  rewrite suggestions_reply, recommend_jobs_reply_spec. cbn [fst snd].
  split; [|split; [|split]].
  - intros x Hx. apply Hitems. eapply firstn_In; eauto.
  - exact Hitems.
  - intros x Hx. apply Hitems. eapply firstn_In; eauto.
  - destruct (last_or_default
                (map Py.strip (filter field_line (Py.splitlines raw)))
                Not_identified) as [-> | H].
    + split; reflexivity.
    + apply in_map_iff in H as (ln & <- & _). apply strip_by_trims.
Qed.

(** ** Camel-case repair, further *)

Lemma transitions_after_upper (b : N) (rest : str) :
  Re.islower_az b = false -> transitions (b :: rest) = transitions rest.
Proof. intros H. destruct rest; simpl; [reflexivity|]. now rewrite H. Qed.

Lemma sub_camel_unfold (a b : N) (rest : str) :
  Re.sub_camel (a :: b :: rest)
  = if Re.islower_az a && Re.isupper_AZ b
    then a :: 32%N :: b :: Re.sub_camel rest
    else a :: Re.sub_camel (b :: rest).
Proof. reflexivity. Qed.

Lemma transitions_unfold (a b : N) (rest : str) :
  transitions (a :: b :: rest)
  = ((if Re.islower_az a && Re.isupper_AZ b then 1 else 0)
     + transitions (b :: rest))%nat.
Proof. reflexivity. Qed.

Lemma sub_camel_content (n : nat) :
  forall text,
    (length text < n)%nat ->
    filter not_space (Re.sub_camel text) = filter not_space text
    /\ length (Re.sub_camel text) = (length text + transitions text)%nat.
Proof.
  induction n as [|n IH]; intros text Hn; [lia|].
  destruct text as [|a [|b rest]]; [split; reflexivity|split; reflexivity|].
  rewrite sub_camel_unfold, transitions_unfold.
  destruct (Re.islower_az a && Re.isupper_AZ b) eqn:E.
  - apply andb_true_iff in E as [_ Hb]. apply upper_not_lower in Hb.
    destruct (IH rest) as [F L]; [simpl in Hn; lia|].
    rewrite (transitions_after_upper b rest Hb). split.
    + cbn [filter]. change (not_space 32) with false. cbv iota.
      now rewrite F.
    + cbn [length]. rewrite L. lia.
  - destruct (IH (b :: rest)) as [F L]; [simpl in Hn |- *; lia|].
    split.
    + change (filter not_space (a :: Re.sub_camel (b :: rest)))
        with (if not_space a
              then a :: filter not_space (Re.sub_camel (b :: rest))
              else filter not_space (Re.sub_camel (b :: rest))).
      rewrite F. reflexivity.
    + change (length (a :: Re.sub_camel (b :: rest)))
        with (S (length (Re.sub_camel (b :: rest)))).
      rewrite L. cbn [length]. lia.
Qed.

(** X12: the camel-case repair only inserts spaces: without their
    spaces the repaired text and the original are the same text, and
    the repaired text is longer by the number of places where a letter
    a-z is directly followed by a letter A-Z. *)
Theorem camel_case_repair_only_adds_spaces (text : str) :
  filter not_space (Re.sub_camel text) = filter not_space text
  /\ length (Re.sub_camel text) = (length text + transitions text)%nat.
Proof. apply (sub_camel_content (S (length text))). lia. Qed.

(** ** Extraction by extension *)

Lemma photo_loop_any (pages : list pdf_page) :
  photo_loop pages false = existsb (fun p => Py.truthy (images p)) pages.
Proof.
  induction pages as [|p pages IH]; simpl; [reflexivity|].
  destruct (Py.truthy (images p)); [reflexivity|exact IH].
Qed.

Lemma page_texts (pages : list pdf_page) :
  map (fun p => match extract_text p with
                | Some t => if Py.truthy t then t else []
                | None => []
                end) pages
  = map page_text pages.
Proof.
  apply map_ext. intros p. unfold page_text.
  destruct (extract_text p) as [[|c t]|]; reflexivity.
Qed.

Lemma extract_run (env : Env) (stem ext : str) (log : list str) :
  ~ In 46%N ext ->
  let path := stem ++ 46%N :: ext in
  extract_text_and_photo env path log =
    if str_eqb (Py.lower ext) (of_string "pdf") then
      match pdfplumber_open env path with
      | inl d => (Raise (Exception d), log)
      | inr pages =>
          (Return (Re.sub_camel (Py.join nl (map page_text pages)),
                   existsb (fun p => Py.truthy (images p)) pages), log)
      end
    else if str_eqb (Py.lower ext) (of_string "docx") then
      match docx_Document env path with
      | inl d => (Raise (Exception d), log)
      | inr doc =>
          (Return (Re.sub_camel (Py.join nl (paragraphs doc)),
                   Py.truthy (inline_shapes doc)), log)
      end
    else
      match textract_process env path with
      | inl d => (Raise (Exception d), log)
      | inr text => (Return (Re.sub_camel text, false), log)
      end.
Proof.
  intros Hext path. unfold extract_text_and_photo. unfold bind at 1.
  unfold path. rewrite after_last_dot_ext by exact Hext.
  destruct (str_eqb (Py.lower ext) (of_string "pdf")).
  { unfold bind, lib, ret, raise.
    destruct (pdfplumber_open env _) as [d|pages]; [reflexivity|].
    now rewrite photo_loop_any, page_texts. }
  destruct (str_eqb (Py.lower ext) (of_string "docx")).
  { unfold bind, lib, ret, raise.
    destruct (docx_Document env _) as [d|doc]; reflexivity. }
  unfold bind, lib, ret, raise.
  destruct (textract_process env _) as [d|text]; reflexivity.
Qed.

(** X13: the extraction goes by the part of the path after its last
    dot, in any letter case.  For "pdf" the text is the page texts
    joined by line feeds (a page without text gives an empty line) and
    the photo flag tells whether some page holds an image; for "docx"
    the text is the paragraphs joined by line feeds and the flag tells
    whether there is an inline shape; every other extension goes to
    textract.  The text is repaired in each case, and an exception of
    the library is passed on as it is. *)
Theorem extraction_goes_by_last_extension (env : Env) (stem ext : str)
        (log : list str) :
  ~ In 46%N ext ->
  let path := stem ++ 46%N :: ext in
  (Py.lower ext = of_string "pdf" ->
   extract_text_and_photo env path log =
     match pdfplumber_open env path with
     | inl d => (Raise (Exception d), log)
     | inr pages =>
         (Return (Re.sub_camel (Py.join nl (map page_text pages)),
                  existsb (fun p => Py.truthy (images p)) pages), log)
     end)
  /\ (Py.lower ext = of_string "docx" ->
      extract_text_and_photo env path log =
        match docx_Document env path with
        | inl d => (Raise (Exception d), log)
        | inr doc =>
            (Return (Re.sub_camel (Py.join nl (paragraphs doc)),
                     Py.truthy (inline_shapes doc)), log)
        end)
  /\ (Py.lower ext <> of_string "pdf" -> Py.lower ext <> of_string "docx" ->
      extract_text_and_photo env path log =
        match textract_process env path with
        | inl d => (Raise (Exception d), log)
        | inr text => (Return (Re.sub_camel text, false), log)
        end).
Proof.
  intros Hext path. pose proof (extract_run env stem ext log Hext) as H.
  fold path in H. cbv zeta in H. split; [|split].
  - intros E. rewrite H, E. reflexivity.
  - intros E. rewrite H, E. reflexivity.
  - intros E1 E2. rewrite H.
    destruct (str_eqb (Py.lower ext) (of_string "pdf")) eqn:B1;
      [apply str_eqb_eq in B1; contradiction|].
    destruct (str_eqb (Py.lower ext) (of_string "docx")) eqn:B2;
      [apply str_eqb_eq in B2; contradiction|].
    reflexivity.
Qed.

Lemma extraction_goes_by_last_extension_witness :
  let env :=
    {| UPLOAD_FOLDER := of_string "/srv/uploads";
       pdfplumber_open := fun _ =>
         inr [ {| extract_text := Some (of_string "JaneDoe"); images := [] |};
               {| extract_text := None; images := [1%N] |} ];
       docx_Document := fun _ => inl (of_string "Package not found");
       textract_process := fun _ => inl (of_string "The file does not exist");
       generate_content := fun _ => inr [];
       isalnum := ascii_alnum |} in
  extract_text_and_photo env (of_string "/srv/uploads/cv.PDF") []
  = (Return (of_string "Jane Doe" ++ nl, true), []).
Proof.
  intros env.
  exact (proj1 (extraction_goes_by_last_extension env
                  (of_string "/srv/uploads/cv") (of_string "PDF") []
                  ltac:(intros H;
                        repeat (destruct H as [H|H]; [discriminate|]);
                        destruct H))
               eq_refl).
Defined.

(** ** The criteria *)

Ltac split_criteria :=
  unfold detect_criteria;
  repeat match goal with
         | |- context [Re.search_words ?a ?b ?c] =>
             destruct (Re.search_words a b c)
         | |- context [Re.search_email ?a ?b || Re.search_phone ?c] =>
             destruct (Re.search_email a b || Re.search_phone c)
           end.

(** X14: the criteria are always the same six keys in the same order;
    "Profile Photo" is the photo flag as it came from the extraction;
    between none and six of them hold, and a photo adds exactly one to
    the count whatever the text. *)
Theorem criteria_have_six_keys (env : Env) (text : str) (has_photo : bool) :
  map fst (detect_criteria env text has_photo)
  = ["Profile Photo"; "Summary"; "Skills"; "Education"; "Projects";
     "Contact Info"]%string
  /\ criterion "Profile Photo" (detect_criteria env text has_photo)
     = Some has_photo
  /\ (0 <= sum_values (detect_criteria env text has_photo) <= 6)%Z
  /\ sum_values (detect_criteria env text true)
     = (1 + sum_values (detect_criteria env text false))%Z.
Proof.
  split; [reflexivity|]. split; [reflexivity|]. split.
  - split_criteria; destruct has_photo; vm_compute; split; discriminate.
  - split_criteria; reflexivity.
Qed.

(** X15: a file that goes to textract (".doc" and every extension
    other than "pdf" and "docx") never has the photo criterion: at most
    five criteria can hold for it, so it needs three of the five
    textual ones. *)
Theorem textract_files_have_no_photo (env : Env) (stem ext text : str)
        (has_photo : bool) (log log' : list str) :
  ~ In 46%N ext ->
  Py.lower ext <> of_string "pdf" -> Py.lower ext <> of_string "docx" ->
  extract_text_and_photo env (stem ++ 46%N :: ext) log
  = (Return (text, has_photo), log') ->
  has_photo = false
  /\ criterion "Profile Photo" (detect_criteria env text has_photo)
     = Some false
  /\ (sum_values (detect_criteria env text has_photo) <= 5)%Z.
Proof.
  intros Hext E1 E2 H.
  pose proof (extract_run env stem ext log Hext) as R. cbv zeta in R.
  rewrite R in H.
  destruct (str_eqb (Py.lower ext) (of_string "pdf")) eqn:B1;
    [apply str_eqb_eq in B1; contradiction|].
  destruct (str_eqb (Py.lower ext) (of_string "docx")) eqn:B2;
    [apply str_eqb_eq in B2; contradiction|].
  destruct (textract_process env _) as [d|t]; [discriminate|].
  injection H as <- <- <-.
  split; [reflexivity|]. split; [reflexivity|].
  split_criteria; vm_compute; discriminate.
Qed.

Lemma textract_files_have_no_photo_witness :
  criterion "Profile Photo"
    (detect_criteria (world resume_text (inr [])) (Re.sub_camel resume_text)
                     false)
  = Some false.
Proof.
  exact (proj1 (proj2 (textract_files_have_no_photo
           (world resume_text (inr []))
           (of_string "/srv/app/backend/uploads/cv") (of_string "doc")
           (Re.sub_camel resume_text) false [] []
           ltac:(intros H; repeat (destruct H as [H|H]; [discriminate|]);
                 destruct H)
           ltac:(discriminate) ltac:(discriminate) eq_refl))).
Defined.

(** *** Contact Info *)

Lemma search_phone_iff (text : str) :
  Re.search_phone text = true <-> phone_match text.
Proof.
  unfold phone_match. split.
  - induction text as [|c t IH]; cbn [Re.search_phone]; [discriminate|].
    intros H. apply orb_true_iff in H as [H|H].
    + apply andb_true_iff in H as [H Ht].
      apply andb_true_iff in H as [Hd Hl]. apply Nat.leb_le in Hl.
      exists [], c, (firstn 7 t), (skipn 7 t). repeat split.
      * now rewrite firstn_skipn.
      * exact Hd.
      * pose proof (firstn_le_length 7 t). lia.
      * exact Ht.
    + destruct (IH H) as (pre & d & tail & post & -> & Hd & Hl & Ht).
      exists (c :: pre), d, tail, post. auto.
  - intros (pre & d & tail & post & -> & Hd & Hl & Ht).
    induction pre as [|x pre IH]; cbn [app Re.search_phone].
    + assert (E : firstn 7 (tail ++ post) = tail).
      { rewrite firstn_app, Hl, Nat.sub_diag, firstn_0, app_nil_r.
        apply firstn_all2. lia. }
      rewrite E, Hd, Ht, Hl. reflexivity.
    + rewrite IH. apply orb_true_r.
Qed.

Section Email.
Variable isalnum : N -> bool.

Local Abbreviation local_part := (email_local isalnum).
Local Abbreviation label_part := (email_label isalnum).
Local Abbreviation tail_part := (email_tail isalnum).

Lemma email_domain_unfold (nonempty : bool) (x : N) (t : str) :
  Re.email_domain isalnum nonempty (x :: t)
  = (nonempty && (x =? 46)%N &&
     match t with d :: _ => tail_part d | [] => false end)
    || (label_part x && Re.email_domain isalnum true t).
Proof. reflexivity. Qed.

Lemma search_email_from_unfold (local : bool) (x : N) (t : str) :
  Re.search_email_from isalnum local (x :: t)
  = (local && (x =? 64)%N && Re.email_domain isalnum false t)
    || Re.search_email_from isalnum (local_part x) t.
Proof. reflexivity. Qed.

Lemma email_domain_iff (nonempty : bool) (s : str) :
  Re.email_domain isalnum nonempty s = true <->
  exists label c post,
    s = label ++ 46%N :: c :: post
    /\ forallb label_part label = true
    /\ tail_part c = true
    /\ (nonempty = true \/ label <> []).
Proof.
  split.
  - revert nonempty; induction s as [|x t IH]; intros nonempty;
      [discriminate|]. rewrite email_domain_unfold.
    intros H. apply orb_true_iff in H as [H|H].
    + apply andb_true_iff in H as [H Hc].
      apply andb_true_iff in H as [Hn Hx]. apply N.eqb_eq in Hx; subst x.
      destruct t as [|d post]; [discriminate|].
      exists [], d, post. repeat split; auto.
    + apply andb_true_iff in H as [Hx H].
      destruct (IH _ H) as (label & c & post & -> & Hl & Hc & _).
      exists (x :: label), c, post. repeat split; auto.
      * cbn [forallb]. now rewrite Hx, Hl.
      * right. discriminate.
  - intros (label & c & post & -> & Hl & Hc & Hn).
    revert nonempty Hn; induction label as [|x label IH]; intros nonempty Hn.
    + destruct Hn as [-> |Hn]; [|congruence].
      cbn [app]. rewrite email_domain_unfold, Hc, N.eqb_refl. reflexivity.
    + cbn [forallb] in Hl. apply andb_true_iff in Hl as [Hx Hl].
      cbn [app]. rewrite email_domain_unfold, Hx.
      rewrite (IH Hl true) by now left.
      apply orb_true_r.
Qed.

Lemma search_email_from_iff (local : bool) (s : str) :
  Re.search_email_from isalnum local s = true <->
  (local = true
   /\ exists t, s = 64%N :: t /\ Re.email_domain isalnum false t = true)
  \/ (exists pre l t,
         s = pre ++ l :: 64%N :: t
         /\ local_part l = true
         /\ Re.email_domain isalnum false t = true).
Proof.
  split.
  - revert local; induction s as [|x t IH]; intros local;
      [discriminate|]. rewrite search_email_from_unfold.
    intros H. apply orb_true_iff in H as [H|H].
    + apply andb_true_iff in H as [H Hd].
      apply andb_true_iff in H as [Hl Hx]. apply N.eqb_eq in Hx; subst x.
      left. eauto.
    + right. destruct (IH _ H) as [(Hx & t' & -> & Hd)|
                                   (pre & l & t' & -> & Hl & Hd)].
      * exists [], x, t'. auto.
      * exists (x :: pre), l, t'. auto.
  - intros [(-> & t & -> & Hd)|(pre & l & t & -> & Hl & Hd)].
    + rewrite search_email_from_unfold. now rewrite Hd, N.eqb_refl.
    + revert local; induction pre as [|x pre IH]; intros local.
      * cbn [app]. rewrite !search_email_from_unfold.
        rewrite Hl, Hd, N.eqb_refl. cbn [andb]. now rewrite !orb_true_r.
      * cbn [app]. rewrite search_email_from_unfold, IH.
        apply orb_true_r.
Qed.

Lemma search_email_iff (text : str) :
  Re.search_email isalnum text = true <-> email_match isalnum text.
Proof.
  unfold Re.search_email, email_match. rewrite search_email_from_iff.
  split.
  - intros [[H _]|(pre & l & t & -> & Hl & Hd)]; [discriminate|].
    apply email_domain_iff in Hd as (label & c & post & -> & Hlab & Hc & Hn).
    destruct Hn as [Hn|Hn]; [discriminate|].
    exists pre, l, label, c, post. auto.
  - intros (pre & l & label & c & post & -> & Hl & Hn & Hlab & Hc).
    right. exists pre, l, (label ++ 46%N :: c :: post).
    repeat split; auto. apply email_domain_iff.
    exists label, c, post. auto.
Qed.
End Email.

(** X16: "Contact Info" holds exactly when the text holds an e-mail
    match (a code point of the local part, "@", a label of word code
    points and dashes, a dot and one more code point) or a phone match
    (a decimal digit followed by seven digits, spaces, parentheses or
    dashes); the optional plus sign of the phone pattern decides
    nothing.  So a span of years such as "2019-2023" counts as contact
    information. *)
Theorem contact_info_iff (env : Env) (text : str) (has_photo : bool) :
  criterion "Contact Info" (detect_criteria env text has_photo) = Some true
  <-> email_match (isalnum env) text \/ phone_match text.
Proof.
  change (criterion "Contact Info" (detect_criteria env text has_photo))
    with (Some (Re.search_email (isalnum env) text || Re.search_phone text)).
  rewrite <- search_email_iff, <- search_phone_iff, <- orb_true_iff.
  split; congruence.
Qed.

Lemma contact_info_iff_witness :
  criterion "Contact Info"
    (detect_criteria (world [] (inr [])) (of_string "Intern, 2019-2023") false)
  = Some true.
Proof.
  apply (proj2 (contact_info_iff (world [] (inr []))
                  (of_string "Intern, 2019-2023") false)).
  right. exists (of_string "Intern, "), 50%N, (of_string "019-202"),
           (of_string "3").
  repeat split.
Defined.

(** *** The keyword criteria *)

Lemma startswith_iff (w s : str) :
  Py.startswith w s = true <-> exists post, s = w ++ post.
Proof.
  revert s; induction w as [|a w IH]; intros s.
  - split; [intros _; now exists s|reflexivity].
  - destruct s as [|b s]; cbn [Py.startswith].
    + split; [discriminate|]. intros (post & E). discriminate.
    + rewrite andb_true_iff, N.eqb_eq, IH. split.
      * intros (-> & post & ->). now exists post.
      * intros (post & E). injection E as -> ->. eauto.
Qed.

Lemma skipn_prefix {A} (w post : list A) : skipn (length w) (w ++ post) = post.
Proof. induction w as [|a w IH]; simpl; auto. Qed.

Lemma last_before_cons (prev : option N) (c : N) (pre : str) :
  last_before prev (c :: pre) = last_before (Some c) pre.
Proof.
  unfold last_before. simpl rev. now destruct (rev pre).
Qed.

Section Words.
Variable isalnum : N -> bool.
Variable ws : list str.

Lemma search_words_from_unfold (prev : option N) (s : str) :
  Re.search_words_from isalnum ws prev s
  = existsb (Re.alternative_at isalnum prev s) ws
    || match s with
       | [] => false
       | c :: t => Re.search_words_from isalnum ws (Some c) t
       end.
Proof. destruct s; reflexivity. Qed.

Lemma alternative_at_iff (prev : option N) (s w : str) :
  Re.alternative_at isalnum prev s w = true <->
  exists post,
    s = w ++ post
    /\ Re.boundary isalnum prev (hd_error (w ++ post)) = true
    /\ Re.boundary isalnum (hd_error (rev w)) (hd_error post) = true.
Proof.
  unfold Re.alternative_at. rewrite !andb_true_iff, startswith_iff. split.
  - intros [[Hb (post & ->)] Ha]. exists post.
    rewrite skipn_prefix in Ha. auto.
  - intros (post & -> & Hb & Ha). rewrite skipn_prefix. eauto.
Qed.

Lemma search_words_from_iff (prev : option N) (s : str) :
  Re.search_words_from isalnum ws prev s = true <->
  exists pre w post,
    In w ws
    /\ s = pre ++ w ++ post
    /\ Re.boundary isalnum (last_before prev pre) (hd_error (w ++ post)) = true
    /\ Re.boundary isalnum (hd_error (rev w)) (hd_error post) = true.
Proof.
  split.
  - revert prev; induction s as [|c t IH]; intros prev;
      rewrite search_words_from_unfold, orb_true_iff;
      (intros [H|H]; [|try discriminate]).
    + apply existsb_exists in H as (w & Hw & H).
      apply alternative_at_iff in H as (post & E & Hb & Ha).
      exists [], w, post. auto.
    + apply existsb_exists in H as (w & Hw & H).
      apply alternative_at_iff in H as (post & E & Hb & Ha).
      exists [], w, post. auto.
    + destruct (IH _ H) as (pre & w & post & Hw & -> & Hb & Ha).
      exists (c :: pre), w, post. rewrite last_before_cons. auto.
  - intros (pre & w & post & Hw & -> & Hb & Ha).
    revert prev Hb; induction pre as [|c pre IH]; intros prev Hb;
      rewrite search_words_from_unfold, orb_true_iff.
    + left. apply existsb_exists. exists w. split; [exact Hw|].
      apply alternative_at_iff. exists post. auto.
    + right. cbn [app]. apply IH. now rewrite <- (last_before_cons prev).
Qed.

Lemma search_words_iff (t : str) :
  Re.search_words isalnum ws t = true <-> word_match isalnum ws t.
Proof. apply search_words_from_iff. Qed.
End Words.

(** X17: each keyword criterion holds exactly when the lower-cased text
    holds one of its words between two word boundaries: "objective" or
    "summary"; "skills" or "skill"; "education", "b.tech", "btech",
    "bachelor", "master" or "phd"; "projects" or "project". *)
Theorem keyword_criteria_iff (env : Env) (text : str) (has_photo : bool) :
  let criteria := detect_criteria env text has_photo in
  let holds ws := word_match (isalnum env) (map of_string ws) (Py.lower text) in
  (criterion "Summary" criteria = Some true
   <-> holds ["objective"; "summary"]%string)
  /\ (criterion "Skills" criteria = Some true
      <-> holds ["skills"; "skill"]%string)
  /\ (criterion "Education" criteria = Some true
      <-> holds ["education"; "b.tech"; "btech"; "bachelor"; "master";
                 "phd"]%string)
  /\ (criterion "Projects" criteria = Some true
      <-> holds ["projects"; "project"]%string).
Proof.
  intros criteria holds. subst criteria holds. cbv beta. cbn [map].
  split; [|split; [|split]].
  - change (criterion "Summary" (detect_criteria env text has_photo))
      with (Some (Re.search_words (isalnum env)
                    [of_string "objective"; of_string "summary"]
                    (Py.lower text))).
    rewrite <- search_words_iff. split; congruence.
  - change (criterion "Skills" (detect_criteria env text has_photo))
      with (Some (Re.search_words (isalnum env)
                    [of_string "skills"; of_string "skill"]
                    (Py.lower text))).
    rewrite <- search_words_iff. split; congruence.
  - change (criterion "Education" (detect_criteria env text has_photo))
      with (Some (Re.search_words (isalnum env)
                    [of_string "education"; of_string "b.tech";
                     of_string "btech"; of_string "bachelor";
                     of_string "master"; of_string "phd"]
                    (Py.lower text))).
    rewrite <- search_words_iff. split; congruence.
  - change (criterion "Projects" (detect_criteria env text has_photo))
      with (Some (Re.search_words (isalnum env)
                    [of_string "projects"; of_string "project"]
                    (Py.lower text))).
    rewrite <- search_words_iff. split; congruence.
Qed.

Lemma lower_char_lower (c : N) :
  Py.lower (Py.lower_char c) = Py.lower_char c.
Proof.
  unfold Py.lower, Py.lower_char.
  destruct ((65 <=? c)%N && (c <=? 90)%N) eqn:E1.
  { apply andb_true_iff in E1 as [A B].
    apply N.leb_le in A, B. cbn [flat_map]. rewrite app_nil_r.
    replace ((65 <=? c + 32)%N && (c + 32 <=? 90)%N) with false
      by (symmetry; apply andb_false_iff; right; apply N.leb_gt; lia).
    replace ((192 <=? c + 32)%N) with false
      by (symmetry; apply N.leb_gt; lia).
    replace ((c + 32 =? 304)%N) with false
      by (symmetry; apply N.eqb_neq; lia).
    replace ((c + 32 =? 8490)%N) with false
      by (symmetry; apply N.eqb_neq; lia).
    reflexivity. }
  destruct ((192 <=? c)%N && (c <=? 222)%N && negb (c =? 215)%N) eqn:E2.
  { apply andb_true_iff in E2 as [E2 _].
    apply andb_true_iff in E2 as [A B].
    apply N.leb_le in A, B. cbn [flat_map]. rewrite app_nil_r.
    replace ((65 <=? c + 32)%N && (c + 32 <=? 90)%N) with false
      by (symmetry; apply andb_false_iff; right; apply N.leb_gt; lia).
    replace ((c + 32 <=? 222)%N) with false
      by (symmetry; apply N.leb_gt; lia).
    rewrite andb_false_r. cbn [andb].
    replace ((c + 32 =? 304)%N) with false
      by (symmetry; apply N.eqb_neq; lia).
    replace ((c + 32 =? 8490)%N) with false
      by (symmetry; apply N.eqb_neq; lia).
    reflexivity. }
  destruct (c =? 304)%N eqn:E3; [reflexivity|].
  destruct (c =? 8490)%N eqn:E4; [reflexivity|].
  cbn [flat_map]. rewrite app_nil_r, E1, E2, E3, E4. reflexivity.
Qed.

Lemma keyword_values (env : Env) (text : str) (has_photo : bool) :
  let words ws := Some (Re.search_words (isalnum env) (map of_string ws)
                          (Py.lower text)) in
  let criteria := detect_criteria env text has_photo in
  criterion "Summary" criteria = words ["objective"; "summary"]%string
  /\ criterion "Skills" criteria = words ["skills"; "skill"]%string
  /\ criterion "Education" criteria
     = words ["education"; "b.tech"; "btech"; "bachelor"; "master";
              "phd"]%string
  /\ criterion "Projects" criteria = words ["projects"; "project"]%string.
Proof. repeat split. Qed.

Lemma lower_char_ascii_lower (c : N) :
  Py.lower_char (ascii_lower c) = Py.lower_char c.
Proof.
  unfold ascii_lower.
  destruct ((65 <=? c)%N && (c <=? 90)%N) eqn:E; [|reflexivity].
  pose proof (lower_char_lower c) as H.
  assert (L : Py.lower_char c = [(c + 32)%N])
    by (unfold Py.lower_char; now rewrite E).
  rewrite L in *. unfold Py.lower in H. cbn [flat_map] in H.
  now rewrite app_nil_r in H.
Qed.

Lemma lower_ascii_lower (t : str) :
  Py.lower (map ascii_lower t) = Py.lower t.
Proof.
  unfold Py.lower. induction t as [|c t IH]; [reflexivity|].
  cbn [map flat_map]. now rewrite lower_char_ascii_lower, IH.
Qed.

(** X18: the four keyword criteria do not see the case of the letters
    A-Z and a-z: two texts that are the same once A-Z is replaced by
    a-z get the same four answers. *)
Theorem keyword_criteria_ignore_case (env : Env) (has_photo : bool)
        (t1 t2 : str) (name : string) :
  map ascii_lower t1 = map ascii_lower t2 ->
  In name ["Summary"; "Skills"; "Education"; "Projects"]%string ->
  criterion name (detect_criteria env t1 has_photo)
  = criterion name (detect_criteria env t2 has_photo).
Proof.
  intros E Hn.
  assert (El : Py.lower t1 = Py.lower t2)
    by (rewrite <- (lower_ascii_lower t1), <- (lower_ascii_lower t2);
        now rewrite E).
  destruct (keyword_values env t1 has_photo) as (A1 & A2 & A3 & A4).
  destruct (keyword_values env t2 has_photo) as (B1 & B2 & B3 & B4).
  cbv zeta in *. rewrite El in *.
  destruct Hn as [<-|[<-|[<-|[<-|[]]]]]; congruence.
Qed.

Lemma keyword_criteria_ignore_case_witness :
  criterion "Skills"
    (detect_criteria (world [] (inr [])) (of_string "TECHNICAL SKILLS") false)
  = criterion "Skills"
      (detect_criteria (world [] (inr [])) (of_string "technical skills")
                       false).
Proof.
  apply (keyword_criteria_ignore_case (world [] (inr [])) false).
  - reflexivity.
  - right; left; reflexivity.
Defined.

(** ** The three parsers on one text *)

(** X19: the three parsers read the dash-prefixed lines in the same
    way: on one and the same text the suggestions and the job roles are
    the same list, namely the first five grammar errors; and the
    grammar errors are one item per dash-prefixed line, none dropped. *)
Theorem parsers_share_the_bullets (raw : str) :
  snd (score_and_suggest_reply raw) = firstn 5 (grammar_errors_reply raw)
  /\ fst (recommend_jobs_reply raw) = firstn 5 (grammar_errors_reply raw)
  /\ length (grammar_errors_reply raw)
     = length (filter dashed (Py.splitlines raw)).
Proof.
  rewrite suggestions_reply, recommend_jobs_reply_spec.
  unfold grammar_errors_reply. rewrite length_map. repeat split.
Qed.

Lemma splitlines_from_sub (n : nat) :
  forall s cur ln c,
    (length s <= n)%nat ->
    In ln (Py.splitlines_from cur s) -> In c ln -> In c cur \/ In c s.
Proof.
  induction n as [|n IH]; intros s cur ln c Hn.
  - destruct s; [|simpl in Hn; lia]. simpl.
    destruct cur; [intros []|]. intros [<-|[]]; auto.
  - destruct s as [|x t]; simpl.
    + destruct cur; [intros []|]. intros [<-|[]]; auto.
    + simpl in Hn. destruct (Py.islinebreak x).
      * intros [<-|H] Hc; [auto|].
        destruct t as [|d t'].
        -- destruct H.
        -- simpl in Hn.
           destruct ((x =? 13)%N && (d =? 10)%N).
           ++ destruct (IH t' [] ln c ltac:(lia) H Hc) as [[]|Ht].
              right; right; now right.
           ++ destruct (IH (d :: t') [] ln c ltac:(simpl; lia) H Hc)
                as [[]|Ht].
              right; now right.
      * intros H Hc.
        destruct (IH t (cur ++ [x]) ln c ltac:(lia) H Hc) as [Hx|Ht].
        -- apply in_app_or in Hx as [Hx|[<-|[]]]; auto.
        -- auto.
Qed.

Lemma splitlines_sub (raw ln : str) (c : N) :
  In ln (Py.splitlines raw) -> In c ln -> In c raw.
Proof.
  intros H Hc.
  destruct (splitlines_from_sub (length raw) raw [] ln c (le_n _) H Hc)
    as [[]|Hr]. exact Hr.
Qed.

Lemma space_is_no_letter (c : N) :
  Py.isspace c = true ->
  Py.lower_char c = [c] /\ Py.mem c [83; 115; 383]%N = false.
Proof.
  unfold Py.isspace, Py.mem at 1. intros H.
  apply existsb_exists in H as (x & Hx & E).
  apply N.eqb_eq in E; subst x.
  repeat (destruct Hx as [<-|Hx];
          [repeat split; discriminate|]).
  destruct Hx.
Qed.

Lemma contains_head (a : N) (sub s : str) :
  Py.contains (a :: sub) s = true -> In a s.
Proof.
  induction s as [|c s IH]; cbn [Py.contains Py.startswith].
  - discriminate.
  - intros H. apply orb_true_iff in H as [H|H].
    + apply andb_true_iff in H as [H _]. apply N.eqb_eq in H. now left.
    + right. auto.
Qed.

Lemma blank_lower (s : str) :
  forallb Py.isspace s = true -> Py.lower s = s.
Proof.
  induction s as [|c s IH]; [reflexivity|]. simpl. intros H.
  apply andb_true_iff in H as [Hc Hs].
  destruct (space_is_no_letter c Hc) as (E & _).
  unfold Py.lower in *. cbn [flat_map]. rewrite E, IH by exact Hs.
  reflexivity.
Qed.

Lemma blank_line_parses_to_nothing (ln : str) :
  forallb Py.isspace ln = true ->
  dashed ln = false /\ Re.search_score ln = None /\ names_field ln = false.
Proof.
  intros H. split; [|split].
  - unfold dashed, Py.strip. now rewrite strip_by_all.
  - destruct (Re.search_score ln) as [g|] eqn:E; [|reflexivity].
    exfalso.
    destruct (proj1 (search_score_matches ln) (ex_intro _ g E))
      as (pre & suf & g' & -> & w & ws1 & ws2 & ws3 & ws4 & rest & -> & Hw & _).
    inversion Hw as [|c cs w' sets Hc Hw' E1 E2]; subst.
    rewrite forallb_app in H. apply andb_true_iff in H as [_ H].
    cbn [app forallb] in H. apply andb_true_iff in H as [H _].
    destruct (space_is_no_letter c H) as (_ & Hm).
    cbv beta in Hc. congruence.
  - unfold names_field. rewrite blank_lower by exact H.
    rewrite forallb_forall in H.
    apply orb_false_iff. split.
    + destruct (Py.contains (of_string "industry") ln) eqn:E; [|reflexivity].
      apply contains_head in E. apply H in E. discriminate E.
    + destruct (Py.contains (of_string "field") ln) eqn:E; [|reflexivity].
      apply contains_head in E. apply H in E. discriminate E.
Qed.

(** X20: a reply that is empty or holds only white space and line
    breaks gives the defaults: score 0, no suggestion, no grammar
    error, no job role and the field "Not identified". *)
Theorem blank_reply_gives_defaults (raw : str) :
  forallb Py.isspace raw = true ->
  score_and_suggest_reply raw = (0%Z, [])
  /\ grammar_errors_reply raw = []
  /\ recommend_jobs_reply raw = ([], Not_identified).
Proof.
  intros H.
  assert (Hl : forall ln, In ln (Py.splitlines raw) ->
                          dashed ln = false /\ Re.search_score ln = None
                          /\ names_field ln = false).
  { intros ln Hln. apply blank_line_parses_to_nothing.
    apply forallb_forall. intros c Hc.
    rewrite forallb_forall in H. apply H.
    exact (splitlines_sub raw ln c Hln Hc). }
  assert (Hd : filter dashed (Py.splitlines raw) = []).
  { apply filter_none. intros ln Hln. now destruct (Hl ln Hln). }
  assert (Hf : filter field_line (Py.splitlines raw) = []).
  { apply filter_none. intros ln Hln. unfold field_line.
    destruct (Hl ln Hln) as (_ & _ & ->). apply andb_false_r. }
  split; [|split].
  - rewrite (surjective_pairing (score_and_suggest_reply raw)).
    rewrite suggestions_reply, Hd. unfold score_and_suggest_reply.
    cbn [fst]. rewrite score_loop_none; [reflexivity|].
    intros ln Hln. now destruct (Hl ln Hln) as (_ & -> & _).
  - unfold grammar_errors_reply. now rewrite Hd.
  - now rewrite recommend_jobs_reply_spec, Hd, Hf.
Qed.

Lemma blank_reply_gives_defaults_witness :
  recommend_jobs_reply (of_string "  " ++ nl ++ [9%N] ++ nl)
  = ([], Not_identified).
Proof.
  exact (proj2 (proj2 (blank_reply_gives_defaults
                         (of_string "  " ++ nl ++ [9%N] ++ nl) eq_refl))).
Defined.
